(** * Property-ratings bot: a shallow embedding of [bot.py]

    The development models the data-aggregation and presentation core of
    the bot (record fetchers, alias resolution, composite rating, ranking,
    report formatting and chunked delivery) as Rocq functions over a model
    of the Python values that the JSON decoder produces, and proves the
    properties of that core. *)

From Stdlib Require Import ZArith List Bool Lia String Ascii DecimalString.
From Stdlib Require Import Floats.SpecFloat.
From Equations Require Import Equations.
From stdpp Require Import gmap list sorting.

Set Warnings "-register-all".
Local Open Scope Z_scope.

(** ** Python strings

    A [str] is a sequence of Unicode code points; [len] counts code points
    and slicing cuts between them. *)

Abbreviation pystr := (list N).

(** An ASCII literal of the source. *)
Definition lit (s : string) : pystr := N_of_ascii <$> list_ascii_of_string s.

(** The characters of the source literals that are not ASCII. *)
Definition nl : pystr := [10%N].
Definition house : pystr := [127968%N].
Definition star : pystr := [11088%N].
Definition clipboard : pystr := [128203%N].

(** [sep.join(parts)] *)
Fixpoint str_join (sep : pystr) (parts : list pystr) : pystr :=
  match parts with
  | [] => []
  | [x] => x
  | x :: rest => x ++ sep ++ str_join sep rest
  end.

(** [s.rstrip(c)] for a one-character [c]. *)
Fixpoint lstrip_char (c : N) (s : pystr) : pystr :=
  match s with
  | x :: s' => if N.eqb x c then lstrip_char c s' else s
  | [] => []
  end.

Definition rstrip_char (c : N) (s : pystr) : pystr :=
  reverse (lstrip_char c (reverse s)).

(** ** Python floats: IEEE 754 binary64 *)

Abbreviation float := spec_float.

Definition prec : Z := 53.
Definition emax : Z := 1024.

Definition fadd : float -> float -> float := SFadd prec emax.
Definition fdiv : float -> float -> float := SFdiv prec emax.
Definition flt : float -> float -> bool := SFltb.
Definition fle : float -> float -> bool := SFleb.
Definition feq : float -> float -> bool := SFeqb.

Definition float_zero : float := S754_zero false.
Definition float_nan : float := S754_nan.

Definition is_nan (f : float) : bool :=
  match f with S754_nan => true | _ => false end.

(** The nearest binary64 value of an integer (ties to even); integers of
    magnitude beyond the largest finite float round to an infinity. *)
Definition float_of_Z (z : Z) : float := binary_normalize prec emax z 0 false.

(** ** Exceptions and results *)

Inductive exn :=
| TypeError
| ValueError
| OverflowError
| ZeroDivisionError
| RequestException
| HTTPError.

Inductive result (A : Type) :=
| Ok (a : A)
| Raise (e : exn).
Arguments Ok {A} a.
Arguments Raise {A} e.

#[global] Instance result_ret : MRet result := fun A a => Ok a.
#[global] Instance result_bind : MBind result := fun A B f m =>
  match m with
  | Ok a => f a
  | Raise e => Raise e
  end.

(** Left-to-right loop whose body may raise. *)
Fixpoint foldM {A B : Type} (f : B -> A -> result B) (acc : B) (l : list A)
  : result B :=
  match l with
  | [] => Ok acc
  | x :: l' => acc' ← f acc x; foldM f acc' l'
  end.

(** A list comprehension whose element expression may raise. *)
Fixpoint comprehension {A B : Type} (f : A -> result B) (l : list A)
  : result (list B) :=
  match l with
  | [] => Ok []
  | x :: l' => y ← f x; ys ← comprehension f l'; Ok (y :: ys)
  end.

(** ** Python values, as decoded from JSON *)

Inductive value :=
| PNone
| PBool (b : bool)
| PInt (z : Z)
| PFloat (f : float)
| PStr (s : pystr)
| PList (l : list value)
| PDict (d : gmap pystr value).

(** A record is a [dict] with string keys. *)
Abbreviation record := (gmap pystr value).

(** [d.get(k, dflt)] *)
Definition dict_get (d : record) (k : pystr) (dflt : value) : value :=
  default dflt (d !! k).

(** [v is None] *)
Definition is_none (v : value) : bool :=
  match v with PNone => true | _ => false end.

(** Truth value of [v] in a condition. *)
Definition truthy (v : value) : bool :=
  match v with
  | PNone => false
  | PBool b => b
  | PInt z => negb (z =? 0)
  | PFloat f => negb (feq f float_zero)
  | PStr s => negb (bool_decide (s = []))
  | PList l => match l with [] => false | _ => true end
  | PDict d => negb (bool_decide (d = ∅))
  end.

(** [float(z)] for an [int]: raises when the nearest float is not finite. *)
Definition int_to_float (z : Z) : result float :=
  match float_of_Z z with
  | S754_infinity _ => Raise OverflowError
  | f => Ok f
  end.

(** [x / y] on floats. *)
Definition float_truediv (x y : float) : result float :=
  if feq y float_zero then Raise ZeroDivisionError else Ok (fdiv x y).

(** [sum(l)] for a list of floats: the running total starts at [0]. *)
Definition py_sum (l : list float) : float := fold_left fadd l (float_of_Z 0).

(** [str(z)] for an [int]. *)
Definition str_int (z : Z) : pystr := lit (NilZero.string_of_int (Z.to_int z)).

(** Index of a slice bound in a sequence of length [len]. *)
Definition slice_bound (len i : Z) : Z :=
  if i <? 0 then Z.max (i + len) 0 else Z.min i len.

(** [l[lo:hi]] *)
Definition py_slice {A : Type} (l : list A) (lo hi : Z) : list A :=
  let len := Z.of_nat (length l) in
  let lo' := slice_bound len lo in
  let hi' := slice_bound len hi in
  take (Z.to_nat (hi' - lo')) (drop (Z.to_nat lo') l).

(** ** [list.sort(key=..., reverse=...)]

    The sort is stable and compares keys with [<] only.  Each element, in
    list order, goes before the first element already placed that it is
    smaller than, and behind all of them when there is none.  With
    [reverse] the list is reversed before and after, which keeps equal
    keys in their original order.  Where [<] orders the keys totally (no
    NaN among them) the result is the one arrangement that every stable
    sort gives; a list of two keys that [<] does not order is left as it
    is. *)

Section Sort.
Context {A : Type} (key : A -> float).

Fixpoint insert_sorted (x : A) (l : list A) : list A :=
  match l with
  | [] => [x]
  | y :: l' =>
      if flt (key x) (key y) then x :: y :: l' else y :: insert_sorted x l'
  end.

Definition sort_ascending (l : list A) : list A :=
  fold_left (fun acc x => insert_sorted x acc) l [].

Definition list_sort (descending : bool) (l : list A) : list A :=
  if descending then reverse (sort_ascending (reverse l))
  else sort_ascending l.
End Sort.

(** ** The runtime's conversions that the bot relies on

    [float(s)] for a string [s] ([None] when it raises [ValueError]) and
    the text that [str] gives for floats, lists and dicts are the
    interpreter's; every result below holds for whatever they are. *)

Record runtime := {
  float_of_str : pystr -> option float;
  repr_float : float -> pystr;
  repr_list : list value -> pystr;
  repr_dict : gmap pystr value -> pystr
}.

(** ** HTTP *)

(** What [requests.get] gives: it raises, or returns a response with a
    status code and a body, whose [.json()] is [None] when the body does
    not parse. *)
Inductive http_reply :=
| RequestFailed
| Response (status_code : Z) (json : option value).

(** [resp.raise_for_status()]: client and server error codes raise. *)
Definition raise_for_status (status_code : Z) : result unit :=
  if (400 <=? status_code) && (status_code <? 600) then Raise HTTPError
  else Ok tt.

(** [resp.json()] *)
Definition resp_json (json : option value) : result value :=
  match json with
  | Some v => Ok v
  | None => Raise ValueError
  end.

(** ** Configuration (module-level settings read from the environment) *)

Record config := {
  MOCKAPI_URL : pystr;
  COMPLAINTS_URL : option pystr;
  MOCKAPI_KEY : option pystr;
  MOCKAPI_KEY_HEADER : pystr;
  MOCKAPI_KEY_PREFIX : pystr
}.

Definition TELEGRAM_MAX_LEN : Z := 4000.

(** ** Chunked delivery *)

(** The calls that [split_and_send] makes on its [chat] argument. *)
Inductive call :=
| ReplyText (text : pystr)
| SendMessage (text : pystr).

(** A chat object: whether it has a [reply_text] method, and the calls
    made on it so far. *)
Record chat := {
  has_reply_text : bool;
  calls : list call
}.

Definition send_fn (c : chat) (text : pystr) : chat :=
  {| has_reply_text := has_reply_text c;
     calls := calls c ++ [if has_reply_text c then ReplyText text
                          else SendMessage text] |}.

Definition call_text (c : call) : pystr :=
  match c with ReplyText t | SendMessage t => t end.

Equations? split_loop (text : pystr) (start : Z) (c : chat) : chat
  by wf (Z.to_nat (Z.of_nat (length text) - start)) lt :=
  split_loop text start c with Z_lt_dec start (Z.of_nat (length text)) := {
    | left _ =>
        let chunk := py_slice text start (start + TELEGRAM_MAX_LEN) in
        split_loop text (start + TELEGRAM_MAX_LEN) (send_fn c chunk)
    | right _ => c
  }.
Proof. unfold TELEGRAM_MAX_LEN. lia. Qed.

Definition split_and_send (c : chat) (text : pystr) : chat :=
  split_loop text 0 c.

(** ** The bot's functions *)

Section Bot.
Variable rt : runtime.
Variable cfg : config.
(** The network: the outcome of a GET of a URL with given headers. *)
Variable requests_get : pystr -> gmap pystr pystr -> http_reply.

(** [float(v)] *)
Definition py_float (v : value) : result float :=
  match v with
  | PFloat f => Ok f
  | PInt z => int_to_float z
  | PBool b => int_to_float (if b then 1 else 0)
  | PStr s =>
      match float_of_str rt s with
      | Some f => Ok f
      | None => Raise ValueError
      end
  | PNone | PList _ | PDict _ => Raise TypeError
  end.

(** [str(v)], which is also what an f-string field [{v}] inserts. *)
Definition py_str (v : value) : pystr :=
  match v with
  | PNone => lit "None"
  | PBool b => if b then lit "True" else lit "False"
  | PInt z => str_int z
  | PFloat f => repr_float rt f
  | PStr s => s
  | PList l => repr_list rt l
  | PDict d => repr_dict rt d
  end.

Definition build_headers : gmap pystr pystr :=
  let headers : gmap pystr pystr :=
    <[lit "User-Agent" := lit "MockAPI-Telegram-Bot/1.0"]>
      (<[lit "Accept" := lit "application/json"]> ∅) in
  match MOCKAPI_KEY cfg with
  | Some key =>
      if bool_decide (key = []) then headers
      else
        let prefix :=
          if bool_decide (MOCKAPI_KEY_PREFIX cfg = []) then []
          else MOCKAPI_KEY_PREFIX cfg ++ lit " " in
        <[MOCKAPI_KEY_HEADER cfg := prefix ++ key]> headers
  | None => headers
  end.

(** The [requests.get] call and the two calls on its response that the
    fetchers make inside their [try] block. *)
Definition get_json (url : pystr) : result value :=
  match requests_get url build_headers with
  | RequestFailed => Raise RequestException
  | Response status_code json =>
      _ ← raise_for_status status_code;
      resp_json json
  end.

Definition fetch_all_properties : value :=
  let attempt : result value :=
    data ← get_json (MOCKAPI_URL cfg);
    match data with
    | PList _ => Ok data
    | PDict d =>
        match d !! lit "data" with
        | Some (PList l) => Ok (PList l)
        | _ => Ok (PList [])
        end
    | _ => Ok (PList [])
    end in
  match attempt with
  | Ok v => v
  | Raise _ => PList []
  end.

Definition fetch_complaints_for_property (property_id : pystr) : value :=
  match COMPLAINTS_URL cfg with
  | None => PList []
  | Some complaints_url =>
      if bool_decide (complaints_url = []) then PList []
      else
        let attempt : result value :=
          let url_with_filter :=
            rstrip_char 47%N complaints_url ++ lit "?property_id="
              ++ property_id in
          data ← get_json url_with_filter;
          match data with
          | PList _ => Ok data
          | PDict d =>
              match d !! lit "data" with
              | Some v => Ok v
              | None => Ok (PList [])
              end
          | _ => Ok (PList [])
          end in
        match attempt with
        | Ok v => v
        | Raise _ => PList []
        end
  end.

Definition format_property (p : record) : pystr :=
  let name := dict_get p (lit "name") (PStr (lit "Unnamed property")) in
  let airbnb :=
    dict_get p (lit "airbnb_rating")
      (dict_get p (lit "airbnb") (PStr (lit "N/A"))) in
  let booking :=
    dict_get p (lit "booking_rating")
      (dict_get p (lit "booking") (PStr (lit "N/A"))) in
  let pid := dict_get p (lit "id") (PStr (lit "N/A")) in
  let extra : list pystr := [] in
  let extra :=
    match p !! lit "location" with
    | Some location => extra ++ [lit "Location: " ++ py_str location]
    | None => extra
    end in
  let extra :=
    match p !! lit "url" with
    | Some url => extra ++ [lit "URL: " ++ py_str url]
    | None => extra
    end in
  let extras :=
    match extra with
    | [] => []
    | _ => (nl ++ lit "    ") ++ str_join (nl ++ lit "    ") extra
    end in
  house ++ lit " " ++ py_str name ++ lit " (id: " ++ py_str pid ++ lit ")"
    ++ nl ++ lit "   " ++ star ++ lit " Airbnb: " ++ py_str airbnb
    ++ nl ++ lit "   " ++ star ++ lit " Booking: " ++ py_str booking
    ++ extras ++ nl.

Definition format_property_basic (p : record) : pystr :=
  let name := dict_get p (lit "name") (PStr (lit "Unnamed property")) in
  let pid := dict_get p (lit "id") (PStr (lit "N/A")) in
  let location :=
    dict_get p (lit "location") (dict_get p (lit "address") (PStr [])) in
  let loc_str := if truthy location then lit " - " ++ py_str location else [] in
  house ++ lit " [" ++ py_str pid ++ lit "] " ++ py_str name ++ loc_str.

(** [description[:200]] and [len(description)], both of which the last
    line of [format_complaint] evaluates, in this order.  Strings and
    lists can be sliced; on every other value the slice raises. *)
Definition description_slice (description : value) : result value :=
  match description with
  | PStr s => Ok (PStr (py_slice s 0 200))
  | PList l => Ok (PList (py_slice l 0 200))
  | PNone | PBool _ | PInt _ | PFloat _ | PDict _ => Raise TypeError
  end.

Definition py_len (v : value) : result Z :=
  match v with
  | PStr s => Ok (Z.of_nat (length s))
  | PList l => Ok (Z.of_nat (length l))
  | PDict d => Ok (Z.of_nat (size d))
  | PNone | PBool _ | PInt _ | PFloat _ => Raise TypeError
  end.

Definition format_complaint (c : record) : result pystr :=
  let complaint_id := dict_get c (lit "id") (PStr (lit "N/A")) in
  let title :=
    dict_get c (lit "title")
      (dict_get c (lit "subject") (PStr (lit "No title"))) in
  let description :=
    dict_get c (lit "description")
      (dict_get c (lit "message")
         (dict_get c (lit "text") (PStr (lit "No description")))) in
  let status := dict_get c (lit "status") (PStr (lit "unknown")) in
  let date :=
    dict_get c (lit "date")
      (dict_get c (lit "created_at")
         (dict_get c (lit "createdAt") (PStr []))) in
  let severity :=
    dict_get c (lit "severity") (dict_get c (lit "priority") (PStr [])) in
  let lines :=
    [clipboard ++ lit " Complaint #" ++ py_str complaint_id ++ lit ": "
       ++ py_str title] in
  let lines := lines ++ [lit "   Status: " ++ py_str status] in
  let lines :=
    if truthy severity then lines ++ [lit "   Severity: " ++ py_str severity]
    else lines in
  let lines :=
    if truthy date then lines ++ [lit "   Date: " ++ py_str date]
    else lines in
  shown ← description_slice description;
  n ← py_len description;
  let lines :=
    lines ++ [lit "   Description: " ++ py_str shown
                ++ (if 200 <? n then lit "..." else [])] in
  Ok (str_join nl lines).

(** One turn of the loop of [get_property_rating] over
    [[airbnb, booking]]. *)
Definition collect_rating (ratings : list float) (r : value)
  : result (list float) :=
  if is_none r then Ok ratings
  else
    match py_float r with
    | Ok f => Ok (ratings ++ [f])
    | Raise ValueError | Raise TypeError => Ok ratings
    | Raise e => Raise e
    end.

Definition get_property_rating (p : record) : result float :=
  let airbnb :=
    dict_get p (lit "airbnb_rating") (dict_get p (lit "airbnb") PNone) in
  let booking :=
    dict_get p (lit "booking_rating") (dict_get p (lit "booking") PNone) in
  ratings ← foldM collect_rating [] [airbnb; booking];
  match ratings with
  | [] => Ok float_zero
  | _ =>
      n ← int_to_float (Z.of_nat (length ratings));
      float_truediv (py_sum ratings) n
  end.

Definition get_top_rated_properties (properties : list record) (limit : Z)
  : result (list (record * float)) :=
  rated ← comprehension
            (fun p => r ← get_property_rating p; Ok (p, r)) properties;
  let rated := list_sort snd true rated in
  Ok (py_slice rated 0 limit).
End Bot.

(** ** The rating aggregator in the words of the specification *)

(** Alias resolution: the value under the first alias that is a key. *)
Fixpoint resolve_alias (p : record) (aliases : list pystr) : option value :=
  match aliases with
  | [] => None
  | k :: rest =>
      match p !! k with
      | Some v => Some v
      | None => resolve_alias p rest
      end
  end.

Definition sub_rating_aliases : list (list pystr) :=
  [[lit "airbnb_rating"; lit "airbnb"]; [lit "booking_rating"; lit "booking"]].

(** Numeric coercion in which a failure counts as absence. *)
Definition coerce (rt : runtime) (v : value) : option float :=
  match py_float rt v with
  | Ok f => Some f
  | Raise _ => None
  end.

(** The sub-ratings that are present and coercible. *)
Definition surviving_ratings (rt : runtime) (p : record) : list float :=
  omap (fun aliases => resolve_alias p aliases ≫= coerce rt)
    sub_rating_aliases.

Definition arithmetic_mean (l : list float) : float :=
  match l with
  | [] => float_zero
  | _ => fdiv (py_sum l) (float_of_Z (Z.of_nat (length l)))
  end.

(** A value that the aggregator drops: [None], or one on which [float]
    raises [ValueError] or [TypeError]. *)
Definition discarded (rt : runtime) (v : value) : Prop :=
  v = PNone \/ py_float rt v = Raise ValueError
  \/ py_float rt v = Raise TypeError.

(** ** A runtime for concrete evaluation

    The examples evaluate the model on records that hold strings and
    integers.  Their runtime converts plain decimal literals (a sign,
    digits, an optional fraction) to the nearest float and rejects other
    strings; it prints floats and containers as a fixed mark. *)

Definition digit_value (c : N) : option Z :=
  if (48 <=? c)%N && (c <=? 57)%N then Some (Z.of_N c - 48) else None.

Fixpoint read_digits (s : pystr) (acc : Z) : Z * pystr :=
  match s with
  | c :: s' =>
      match digit_value c with
      | Some d => read_digits s' (10 * acc + d)
      | None => (acc, s)
      end
  | [] => (acc, [])
  end.

Definition starts_with_digit (s : pystr) : bool :=
  match s with
  | c :: _ => bool_decide (is_Some (digit_value c))
  | [] => false
  end.

(** The float nearest to [n / d] (ties to even), for [0 <= n] and [0 < d]:
    the quotient is cut after at least 64 bits and its last bit records
    whether anything was cut. *)
Definition round_ratio (negative : bool) (n d : Z) : float :=
  let s := 64 + Z.log2_up d in
  let q := Z.shiftl n s / d in
  let sticky := if Z.shiftl n s mod d =? 0 then 0 else 1 in
  let m := 2 * q + sticky in
  binary_normalize prec emax (if negative then - m else m) (- (s + 1))
    negative.

Definition decimal_float (s : pystr) : option float :=
  let '(negative, body) :=
    match s with
    | 45%N :: s' => (true, s')
    | 43%N :: s' => (false, s')
    | _ => (false, s)
    end in
  if negb (starts_with_digit body) then None
  else
    match read_digits body 0 with
    | (whole, []) => Some (round_ratio negative whole 1)
    | (whole, 46%N :: frac) =>
        match read_digits frac whole with
        | (n, []) =>
            Some (round_ratio negative n (10 ^ Z.of_nat (length frac)))
        | _ => None
        end
    | _ => None
    end.

Definition sample_runtime : runtime :=
  {| float_of_str := decimal_float;
     repr_float := fun _ => lit "<float>";
     repr_list := fun _ => lit "<list>";
     repr_dict := fun _ => lit "<dict>" |}.

(** ** The ranker in the words of the specification *)

(** A ranked entry pairs a record with its composite score. *)
Definition entry_of (rt : runtime) (p : record) (e : record * float) : Prop :=
  e.1 = p /\ get_property_rating rt p = Ok e.2.

(** Non-increasing by composite score: no entry is followed by one of a
    larger score. *)
Definition non_increasing (out : list (record * float)) : Prop :=
  StronglySorted (fun a b => fle b.2 a.2 = true) out.

(** The entries of score [k], in list order. *)
Definition of_score (k : float) (l : list (record * float))
  : list (record * float) :=
  filter (fun e => feq e.2 k = true) l.

(** ** Chunked delivery in the words of the specification *)

(** The texts sent on a chat between two of its states. *)
Definition chunks_sent (before after : chat) : list pystr :=
  call_text <$> drop (length (calls before)) (calls after).

(** [ceil(a / b)] for [0 <= a] and [0 < b]. *)
Definition ceil_div (a b : Z) : Z := (a + b - 1) / b.

(** ** The fetchers in the words of the specification *)

(** A failed request: a transport error, a client or server error status,
    or a body that is not JSON. *)
Definition failed_fetch (reply : http_reply) : Prop :=
  match reply with
  | RequestFailed => True
  | Response status_code json =>
      400 <= status_code < 600 \/ json = None
  end.

(** The same with "a status other than 200" for the error statuses. *)
Definition failed_or_not_200 (reply : http_reply) : Prop :=
  match reply with
  | RequestFailed => True
  | Response status_code json => status_code <> 200 \/ json = None
  end.

(** The sequence that the specification gives for a parsed body. *)
Definition records_of_body (body : value) : value :=
  match body with
  | PList l => PList l
  | PDict d =>
      match d !! lit "data" with
      | Some (PList l) => PList l
      | _ => PList []
      end
  | _ => PList []
  end.

(** ** A configuration and a network for concrete evaluation *)

Definition sample_config : config :=
  {| MOCKAPI_URL := lit "https://example.mockapi.io/properties";
     COMPLAINTS_URL := Some (lit "https://example.mockapi.io/complaints/");
     MOCKAPI_KEY := None;
     MOCKAPI_KEY_HEADER := lit "Authorization";
     MOCKAPI_KEY_PREFIX := lit "Bearer" |}.

(** The network that answers every request with [reply]. *)
Definition always (reply : http_reply)
  : pystr -> gmap pystr pystr -> http_reply :=
  fun _ _ => reply.

(** ** The formatters in the words of the specification *)

Fixpoint starts_with (sub l : pystr) : bool :=
  match sub, l with
  | [], _ => true
  | _ :: _, [] => false
  | x :: sub', y :: l' => N.eqb x y && starts_with sub' l'
  end.

(** [sub] occurs in [l]: the text [l] shows [sub]. *)
Fixpoint contains (sub l : pystr) : bool :=
  starts_with sub l
  || match l with
     | [] => false
     | _ :: l' => contains sub l'
     end.

(** The aliases of a complaint's description, in order. *)
Definition description_aliases : list pystr :=
  [lit "description"; lit "message"; lit "text"].

(** ** The order of floats

    Floats other than NaN are totally preordered; [float_rank] places each
    of them in the lexicographic order of integer triples. *)

Definition float_rank (f : float) : Z * Z * Z :=
  match f with
  | S754_nan => (0, 0, 0)
  | S754_zero _ => (0, 0, 0)
  | S754_infinity s => (if s then -2 else 2, 0, 0)
  | S754_finite s m e =>
      if s then (-1, - e, Z.neg m) else (1, e, Z.pos m)
  end.

Definition rank_lt (a b : Z * Z * Z) : Prop :=
  a.1.1 < b.1.1 \/
  (a.1.1 = b.1.1 /\ (a.1.2 < b.1.2 \/ (a.1.2 = b.1.2 /\ a.2 < b.2))).

(** * Further definitions

    The rest of the bot's functions, and the words in which their
    properties are stated. *)

(** A sub-rating on which [float] raises [OverflowError]. *)
Definition overflows (rt : runtime) (p : record) (aliases : list pystr)
  : Prop :=
  exists v, resolve_alias p aliases = Some v
            /\ py_float rt v = Raise OverflowError.

(** The configuration with another [COMPLAINTS_URL]. *)
Definition with_complaints_url (cfg : config) (url : option pystr) : config :=
  {| MOCKAPI_URL := MOCKAPI_URL cfg;
     COMPLAINTS_URL := url;
     MOCKAPI_KEY := MOCKAPI_KEY cfg;
     MOCKAPI_KEY_HEADER := MOCKAPI_KEY_HEADER cfg;
     MOCKAPI_KEY_PREFIX := MOCKAPI_KEY_PREFIX cfg |}.

(** The headers that [build_headers] starts from. *)
Definition default_headers : gmap pystr pystr :=
  <[lit "User-Agent" := lit "MockAPI-Telegram-Bot/1.0"]>
    (<[lit "Accept" := lit "application/json"]> ∅).

(** ** Failures that reach a handler's caller

    A handler has no [try]: what its calls raise goes to the dispatcher.
    Besides the exceptions of the core there is [AttributeError], raised by
    [.get] on a value that is no dict. *)
Inductive failure :=
| AttributeError
| Core (e : exn).

(** The elements that a [for] loop takes from a value.  A dict gives its
    keys (their order is not modelled); numbers, booleans and [None]
    cannot be iterated. *)
Definition py_iter (v : value) : failure + list value :=
  match v with
  | PList l => inr l
  | PStr s => inr ((fun c => PStr [c]) <$> s)
  | PDict d => inr (PStr <$> (map_to_list d).*1)
  | PNone | PBool _ | PInt _ | PFloat _ => inl (Core TypeError)
  end.

(** A call [f(p)] of a function that starts with [p.get(...)]. *)
Definition on_record {A : Type} (f : record -> failure + A) (p : value)
  : failure + A :=
  match p with
  | PDict d => f d
  | _ => inl AttributeError
  end.

(** [for p in props: lines.append(f(p))], with [sep] appended after each
    when the loop has a second [append]. *)
Fixpoint append_each (f : value -> failure + pystr) (sep : list pystr)
    (props : list value) (lines : list pystr) : failure + list pystr :=
  match props with
  | [] => inr lines
  | p :: rest =>
      match f p with
      | inl e => inl e
      | inr line => append_each f sep rest (lines ++ [line] ++ sep)
      end
  end.

(** ** The update that a handler receives

    The calls made on [update.message], which has a [reply_text] method,
    and the actions sent to [update.message.chat]. *)
Record update := {
  message_calls : list call;
  chat_actions : list pystr
}.

Definition message (u : update) : chat :=
  {| has_reply_text := true; calls := message_calls u |}.

Definition with_message (u : update) (m : chat) : update :=
  {| message_calls := calls m; chat_actions := chat_actions u |}.

(** [update.message.reply_text(text)] *)
Definition reply_text (u : update) (text : pystr) : update :=
  {| message_calls := message_calls u ++ [ReplyText text];
     chat_actions := chat_actions u |}.

(** [update.message.chat.send_action(action)] *)
Definition send_action (u : update) (action : pystr) : update :=
  {| message_calls := message_calls u;
     chat_actions := chat_actions u ++ [action] |}.

(** The texts replied on the message between two states of an update. *)
Definition replies (before after : update) : list pystr :=
  chunks_sent (message before) (message after).

Definition houses : pystr := [127969%N].
Definition bulb : pystr := [128161%N].

(** ** The other fetchers, the chart's series and the handlers *)

Section BotMore.
Variable rt : runtime.
Variable cfg : config.
(** [PROPERTIES_URL]: the variable of that name, [MOCKAPI_URL] when it is
    not set. *)
Variable PROPERTIES_URL : pystr.
Variable requests_get : pystr -> gmap pystr pystr -> http_reply.

Definition fetch_properties_list : value :=
  let url :=
    if bool_decide (PROPERTIES_URL = []) then MOCKAPI_URL cfg
    else PROPERTIES_URL in
  let attempt : result value :=
    data ← get_json cfg requests_get url;
    match data with
    | PList _ => Ok data
    | PDict d =>
        match d !! lit "data" with
        | Some (PList l) => Ok (PList l)
        | _ => Ok (PList [])
        end
    | _ => Ok (PList [])
    end in
  match attempt with
  | Ok v => v
  | Raise _ => PList []
  end.

(** The loop of [fetch_property_by_id] over the fetched list, and the
    [return {}] behind it; [None] when [p.get] raises on an element that
    is no dict. *)
Fixpoint scan_for_id (property_id : pystr) (all_props : list value)
  : option value :=
  match all_props with
  | [] => Some (PDict ∅)
  | p :: rest =>
      match p with
      | PDict d =>
          if bool_decide (py_str rt (dict_get d (lit "id") PNone)
                          = py_str rt (PStr property_id))
          then Some p
          else scan_for_id property_id rest
      | _ => None
      end
  end.

(** The body of the [try] is an [option]: [None] when it raises, which
    the [except] turns into [{}].  [fetch_all_properties] returns a list;
    were it anything else, the loop would raise or find nothing. *)
Definition fetch_property_by_id (property_id : pystr) : value :=
  let attempt : option value :=
    let single_url :=
      rstrip_char 47%N (MOCKAPI_URL cfg) ++ lit "/" ++ property_id in
    match requests_get single_url (build_headers cfg) with
    | RequestFailed => None
    | Response status_code json =>
        if status_code =? 200 then json
        else
          match fetch_all_properties cfg requests_get with
          | PList all_props => scan_for_id property_id all_props
          | _ => None
          end
    end in
  default (PDict ∅) attempt.




(** [split_and_send(update.message, text)] *)
Definition send_report (u : update) (text : pystr) : update :=
  with_message u (split_and_send (message u) text).

Definition ratings_handler (u : update) : update * option failure :=
  let u := send_action u (lit "typing") in
  let props := fetch_all_properties cfg requests_get in
  if negb (truthy props) then
    (reply_text u
       (lit "No property data available (check MOCKAPI_URL or network)."),
     None)
  else
    let lines := [houses ++ lit " Property Ratings (MockAPI) " ++ nl] in
    match py_iter props with
    | inl e => (u, Some e)
    | inr elements =>
        match append_each
                (on_record (fun p => inr (format_property rt p))) []
                elements lines with
        | inl e => (u, Some e)
        | inr lines => (send_report u (str_join nl lines), None)
        end
    end.

Definition properties_handler (u : update) : update * option failure :=
  let u := send_action u (lit "typing") in
  let props := fetch_properties_list in
  if negb (truthy props) then
    (reply_text u (lit "No properties available."), None)
  else
    let lines := [house ++ lit " Properties List" ++ nl] in
    match py_iter props with
    | inl e => (u, Some e)
    | inr elements =>
        match append_each
                (on_record (fun p => inr (format_property_basic rt p))) []
                elements lines with
        | inl e => (u, Some e)
        | inr lines =>
            let lines :=
              lines ++ [nl ++ bulb ++ lit " Use /property <id> for details"] in
            let lines :=
              lines
                ++ [bulb ++ lit " Use /complaints <id> to see complaints"] in
            (send_report u (str_join nl lines), None)
        end
    end.


(** [format_complaint(c)] as a handler calls it. *)
Definition format_complaint_call (c : value) : failure + pystr :=
  on_record
    (fun c =>
       match format_complaint rt c with
       | Ok text => inr text
       | Raise e => inl (Core e)
       end) c.

Definition complaints_handler (args : list pystr) (u : update)
  : update * option failure :=
  match args with
  | [] =>
      (reply_text u
         (lit "Usage: /complaints <property_id>" ++ nl
            ++ lit "Example: /complaints 1" ++ nl ++ nl
            ++ lit "This will show all complaints for the specified property."),
       None)
  | prop_id :: _ =>
      if bool_decide (default [] (COMPLAINTS_URL cfg) = []) then
        (reply_text u
           (lit "Complaints feature is not configured." ++ nl
              ++ lit "Please set COMPLAINTS_URL in environment variables."),
         None)
      else
        let u := send_action u (lit "typing") in
        let prop := fetch_property_by_id prop_id in
        if negb (truthy prop) then
          (reply_text u
             (lit "Property with id " ++ prop_id ++ lit " not found."),
           None)
        else
          let complaints :=
            fetch_complaints_for_property cfg requests_get prop_id in
          match on_record
                  (fun p =>
                     inr (dict_get p (lit "name")
                            (PStr (lit "Property " ++ prop_id)))) prop with
          | inl e => (u, Some e)
          | inr prop_name =>
              if negb (truthy complaints) then
                (reply_text u
                   (lit "No complaints found for " ++ py_str rt prop_name
                      ++ lit " (id: " ++ prop_id ++ lit ")."),
                 None)
              else
                let lines :=
                  [clipboard ++ lit " Complaints for " ++ py_str rt prop_name
                     ++ lit " (id: " ++ prop_id ++ lit ")" ++ nl] in
                match py_len complaints with
                | Raise e => (u, Some (Core e))
                | Ok n =>
                    let lines :=
                      lines ++ [lit "Total: " ++ str_int n
                                  ++ lit " complaint(s)" ++ nl] in
                    match py_iter complaints with
                    | inl e => (u, Some e)
                    | inr elements =>
                        match append_each format_complaint_call [[]]
                                elements lines with
                        | inl e => (u, Some e)
                        | inr lines =>
                            (send_report u (str_join nl lines), None)
                        end
                    end
                end
          end
  end.
End BotMore.

(** The keys that [format_property] reads. *)
Definition format_property_keys : list pystr :=
  [lit "name"; lit "airbnb_rating"; lit "airbnb"; lit "booking_rating";
   lit "booking"; lit "id"; lit "location"; lit "url"].

(** A value that has a slice: a string or a list. *)
Definition sliceable (v : value) : bool :=
  match v with
  | PStr _ | PList _ => true
  | _ => false
  end.

(** ** Records and a network for concrete evaluation *)

Definition sample_a : record :=
  <[lit "name" := PStr (lit "A")]>
    (<[lit "id" := PStr (lit "1")]>
       (<[lit "airbnb_rating" := PInt 4]>
          {[lit "booking_rating" := PInt 5]})).

Definition sample_b : record :=
  <[lit "name" := PStr (lit "B")]>
    (<[lit "id" := PInt 2]> {[lit "airbnb" := PInt 3]}).

(** An update on which nothing has been done yet. *)
Definition fresh_update : update :=
  {| message_calls := []; chat_actions := [] |}.

Definition sample_complaint : record :=
  <[lit "id" := PInt 9]>
    (<[lit "title" := PStr (lit "Noise")]>
       {[lit "message" := PStr (lit "Loud music at night")]}).

(** The network that has the two records under [MOCKAPI_URL], one
    complaint about property 1, and nothing elsewhere. *)
Definition sample_network : pystr -> gmap pystr pystr -> http_reply :=
  fun url _ =>
    if bool_decide (url = MOCKAPI_URL sample_config)
    then Response 200 (Some (PList [PDict sample_a; PDict sample_b]))
    else if bool_decide
              (url = lit "https://example.mockapi.io/complaints?property_id=1")
    then Response 200 (Some (PList [PDict sample_complaint]))
    else Response 404 None.

(** * Properties *)

(** ** The order of floats *)

Lemma SFcompare_rank (a b : float) :
  is_nan a = false -> is_nan b = false ->
  exists c, SFcompare a b = Some c /\
    match c with
    | Lt => rank_lt (float_rank a) (float_rank b)
    | Eq => float_rank a = float_rank b
    | Gt => rank_lt (float_rank b) (float_rank a)
    end.
Proof.
  unfold rank_lt.
  destruct a as [sa|sa| |sa m1 e1], b as [sb|sb| |sb m2 e2];
    try discriminate; intros _ _; simpl.
  all: try (destruct sa); try (destruct sb); simpl.
  all: try (eexists; split; [reflexivity|]; simpl; first [reflexivity|lia]).
  all: change (Pos.compare_cont Eq m1 m2) with (Pos.compare m1 m2).
  all: destruct (Z.compare_spec e1 e2);
    [destruct (Pos.compare_spec m1 m2)|..];
    eexists; (split; [reflexivity|]); simpl; subst;
    first [reflexivity|lia].
Qed.

Lemma flt_rank (a b : float) :
  is_nan a = false -> is_nan b = false ->
  flt a b = true <-> rank_lt (float_rank a) (float_rank b).
Proof.
  intros Ha Hb. destruct (SFcompare_rank a b Ha Hb) as (c & Hc & H).
  unfold flt, SFltb. rewrite Hc. unfold rank_lt in *.
  destruct c; (split; [try discriminate|try reflexivity]);
    try rewrite H; lia.
Qed.

Lemma feq_rank (a b : float) :
  is_nan a = false -> is_nan b = false ->
  feq a b = true <-> float_rank a = float_rank b.
Proof.
  intros Ha Hb. destruct (SFcompare_rank a b Ha Hb) as (c & Hc & H).
  unfold feq, SFeqb. rewrite Hc. unfold rank_lt in *.
  destruct c; (split; [try discriminate|try reflexivity]); try done;
    intros E; rewrite E in H; lia.
Qed.

Lemma fle_rank (a b : float) :
  is_nan a = false -> is_nan b = false ->
  fle a b = true <-> ~ rank_lt (float_rank b) (float_rank a).
Proof.
  intros Ha Hb. destruct (SFcompare_rank a b Ha Hb) as (c & Hc & H).
  unfold fle, SFleb. rewrite Hc. unfold rank_lt in *.
  destruct c; (split; [try discriminate|try reflexivity]);
    try rewrite H; lia.
Qed.

(** For floats other than NaN, [a <= b] is the negation of [b < a]. *)
Lemma fle_not_flt (a b : float) :
  is_nan a = false -> is_nan b = false -> fle a b = negb (flt b a).
Proof.
  intros Ha Hb. pose proof (fle_rank a b Ha Hb). pose proof (flt_rank b a Hb Ha).
  destruct (fle a b), (flt b a); simpl; try reflexivity; exfalso; intuition.
Qed.

Lemma flt_rank_false (a b : float) :
  is_nan a = false -> is_nan b = false ->
  flt a b = false <-> ~ rank_lt (float_rank a) (float_rank b).
Proof.
  intros Ha Hb. rewrite <- (flt_rank a b Ha Hb).
  destruct (flt a b); split; intros; done.
Qed.

Lemma feq_nan_r (a : float) : feq a S754_nan = false.
Proof. by destruct a. Qed.

Ltac rank_order :=
  repeat match goal with
    | H : flt _ _ = true |- _ => apply flt_rank in H; [|assumption..]
    | H : flt _ _ = false |- _ => apply flt_rank_false in H; [|assumption..]
    | H : feq _ _ = true |- _ => apply feq_rank in H; [|assumption..]
    | |- flt _ _ = true => apply flt_rank; [assumption..|]
    | |- flt _ _ = false => apply flt_rank_false; [assumption..|]
    end;
  repeat match goal with
    | H : float_rank _ = float_rank _ |- _ => rewrite H in *; clear H
    end;
  unfold rank_lt in *; lia.

Lemma flt_asym (a b : float) :
  is_nan a = false -> is_nan b = false ->
  flt a b = true -> flt b a = false.
Proof. intros. rank_order. Qed.

(** [a < b] and [b <= c] give [a < c]. *)
Lemma flt_fle_trans (a b c : float) :
  is_nan a = false -> is_nan b = false -> is_nan c = false ->
  flt a b = true -> flt c b = false -> flt a c = true.
Proof. intros. rank_order. Qed.

(** Two floats equal to a third are not ordered by [<]. *)
Lemma feq_not_flt (a c k : float) :
  is_nan a = false -> is_nan c = false -> is_nan k = false ->
  feq a k = true -> flt a c = true -> feq c k = false.
Proof.
  intros Ha Hc Hk Hak Hac. destruct (feq c k) eqn:Hck; [|done].
  exfalso. rank_order.
Qed.

(** ** The sort *)

Section SortFacts.
Context {A : Type} (key : A -> float).
Implicit Types (x y : A) (l acc : list A).

Local Abbreviation ok := (fun x => is_nan (key x) = false).
Local Abbreviation asc := (fun x y => flt (key y) (key x) = false).
Local Abbreviation same k := (fun x => feq (key x) k = true).

Lemma insert_sorted_perm x l : insert_sorted key x l ≡ₚ x :: l.
Proof.
  induction l as [|y l IH]; simpl; [done|].
  destruct (flt (key x) (key y)); [done|].
  rewrite IH. apply Permutation_swap.
Qed.

Lemma sort_fold_perm l acc :
  fold_left (fun acc x => insert_sorted key x acc) l acc ≡ₚ acc ++ l.
Proof.
  revert acc. induction l as [|x l IH]; intros acc; simpl.
  - by rewrite app_nil_r.
  - rewrite IH, insert_sorted_perm. simpl. apply Permutation_middle.
Qed.

Lemma sort_ascending_perm l : sort_ascending key l ≡ₚ l.
Proof. unfold sort_ascending. by rewrite sort_fold_perm. Qed.

Lemma list_sort_perm b l : list_sort key b l ≡ₚ l.
Proof.
  destruct b; simpl; [|apply sort_ascending_perm].
  by rewrite reverse_Permutation, sort_ascending_perm, reverse_Permutation.
Qed.

Lemma insert_sorted_sorted x l :
  ok x -> Forall ok l -> StronglySorted asc l ->
  StronglySorted asc (insert_sorted key x l).
Proof.
  intros Hx. induction l as [|y l IH]; intros Hl Hs; simpl.
  - repeat constructor.
  - apply Forall_cons in Hl as [Hy Hl].
    apply StronglySorted_inv in Hs as [Hs Hyl].
    destruct (flt (key x) (key y)) eqn:Hxy.
    + constructor; [by constructor|]. constructor.
      * by apply flt_asym.
      * rewrite Forall_forall in Hyl, Hl. apply Forall_forall. intros z Hz.
        apply flt_asym; [done|by apply Hl|].
        apply (flt_fle_trans _ (key y)); auto.
    + constructor; [by apply IH|].
      rewrite (insert_sorted_perm x l). by constructor.
Qed.

Lemma sort_fold_sorted l acc :
  Forall ok l -> Forall ok acc -> StronglySorted asc acc ->
  StronglySorted asc
    (fold_left (fun acc x => insert_sorted key x acc) l acc).
Proof.
  revert acc. induction l as [|x l IH]; intros acc Hl Hacc Hs; simpl; [done|].
  apply Forall_cons in Hl as [Hx Hl]. apply IH; [done| |].
  - rewrite insert_sorted_perm. by constructor.
  - by apply insert_sorted_sorted.
Qed.

Lemma sort_ascending_sorted l :
  Forall ok l -> StronglySorted asc (sort_ascending key l).
Proof. intros Hl. apply sort_fold_sorted; [done|constructor..]. Qed.

Lemma filter_none (P : A -> Prop) `{forall x, Decision (P x)} l :
  Forall (fun x => ~ P x) l -> filter P l = [].
Proof.
  induction 1 as [|x l Hx _ IH]; [done|]. by rewrite filter_cons_False.
Qed.

(** An element goes behind the elements with an equal key. *)
Lemma insert_sorted_filter k x l :
  is_nan k = false -> ok x -> Forall ok l -> StronglySorted asc l ->
  filter (same k) (insert_sorted key x l)
  = filter (same k) l ++ filter (same k) [x].
Proof.
  intros Hk Hx. induction l as [|y l IH]; intros Hl Hs; simpl; [done|].
  apply Forall_cons in Hl as [Hy Hl].
  apply StronglySorted_inv in Hs as [Hs Hyl].
  destruct (flt (key x) (key y)) eqn:Hxy.
  - destruct (feq (key x) k) eqn:Hxk.
    + assert (Hnone : filter (same k) (y :: l) = []).
      { apply filter_none. constructor.
        - rewrite (feq_not_flt (key x) (key y) k); auto.
        - rewrite Forall_forall in Hyl, Hl. apply Forall_forall. intros z Hz.
          rewrite (feq_not_flt (key x) (key z) k); auto.
          apply (flt_fle_trans _ (key y)); auto. }
      rewrite (filter_cons_True _ x) by done.
      rewrite Hnone, (filter_cons_True _ x) by done. done.
    + rewrite !(filter_cons_False _ x) by (by rewrite Hxk).
      by rewrite filter_nil, app_nil_r.
  - rewrite !(filter_cons _ y), IH by done.
    by destruct (decide (feq (key y) k = true)).
Qed.

Lemma sort_fold_filter k l acc :
  is_nan k = false -> Forall ok l -> Forall ok acc ->
  StronglySorted asc acc ->
  filter (same k) (fold_left (fun acc x => insert_sorted key x acc) l acc)
  = filter (same k) acc ++ filter (same k) l.
Proof.
  intros Hk. revert acc.
  induction l as [|x l IH]; intros acc Hl Hacc Hs; simpl.
  - by rewrite filter_nil, app_nil_r.
  - apply Forall_cons in Hl as [Hx Hl]. rewrite IH; [|done| |].
    + rewrite insert_sorted_filter by done.
      rewrite <- app_assoc. f_equal. by rewrite <- filter_app.
    + rewrite insert_sorted_perm. by constructor.
    + by apply insert_sorted_sorted.
Qed.

(** The descending sort puts no smaller key before a larger one. *)
Lemma list_sort_descending_sorted l :
  Forall ok l ->
  StronglySorted (fun x y => fle (key y) (key x) = true)
    (list_sort key true l).
Proof.
  intros Hl. simpl.
  assert (Hok : Forall ok (sort_ascending key (reverse l))).
  { by rewrite sort_ascending_perm, reverse_Permutation. }
  pose proof (sort_ascending_sorted (reverse l)) as Hs.
  rewrite Forall_reverse in Hs. specialize (Hs Hl).
  revert Hok Hs. generalize (sort_ascending key (reverse l)). clear.
  induction l as [|x l IH]; intros Hok Hs; [constructor|].
  rewrite reverse_cons.
  apply Forall_cons in Hok as [Hx Hok].
  apply StronglySorted_inv in Hs as [Hs Hxl].
  apply StronglySorted_app_2; [|by apply IH|repeat constructor].
  intros y z Hy ->%list_elem_of_singleton.
  rewrite elem_of_reverse in Hy.
  rewrite Forall_forall in Hxl, Hok.
  rewrite fle_not_flt; auto. by rewrite Hxl.
Qed.

(** The descending sort keeps entries with equal keys in input order. *)
Lemma list_sort_descending_stable k l :
  Forall ok l ->
  filter (same k) (list_sort key true l) = filter (same k) l.
Proof.
  intros Hl. destruct (is_nan k) eqn:Hk.
  - destruct k; try discriminate.
    rewrite !filter_none; [done|..]; apply Forall_forall; intros x _;
      by rewrite feq_nan_r.
  - simpl. unfold sort_ascending.
    rewrite filter_reverse, sort_fold_filter; try done.
    + by rewrite filter_nil, app_nil_l, filter_reverse, reverse_involutive.
    + by apply Forall_reverse.
    + constructor.
Qed.
End SortFacts.

(** ** The rating aggregator *)

Ltac in_list := unfold sub_rating_aliases; rewrite ?elem_of_cons; auto.

Section Rating.
Variable rt : runtime.
Implicit Types (p : record) (v w : value).

(** [float] raises nothing but the three exceptions below. *)
Lemma py_float_raises v e :
  py_float rt v = Raise e ->
  e = ValueError \/ e = TypeError \/ e = OverflowError.
Proof.
  destruct v as [|b|z|f|s|l|d]; simpl; try (intros [= <-]; auto); try done.
  - unfold int_to_float. destruct (float_of_Z _); intros [= <-]; auto.
  - unfold int_to_float. destruct (float_of_Z _); intros [= <-]; auto.
  - destruct (float_of_str rt s); intros [= <-]; auto.
Qed.

(** One turn of the loop keeps the value's float, drops the value, or
    lets [OverflowError] through. *)
Lemma collect_rating_spec ratings v :
  collect_rating rt ratings v =
    match py_float rt v with
    | Raise OverflowError => if is_none v then Ok ratings else Raise OverflowError
    | _ => Ok (ratings ++ from_option (fun f => [f]) [] (coerce rt v))
    end.
Proof.
  unfold collect_rating, coerce.
  destruct (is_none v) eqn:Hn.
  - destruct v; try discriminate. simpl. by rewrite app_nil_r.
  - destruct (py_float rt v) as [f|e] eqn:Hf; [done|].
    destruct (py_float_raises v e Hf) as [->|[->| ->]]; simpl;
      by rewrite ?app_nil_r.
Qed.
(** The value that the loop sees for a sub-rating is the one that alias
    resolution finds, or [None]. *)
Lemma dict_get_alias p k1 k2 :
  dict_get p k1 (dict_get p k2 PNone) = default PNone (resolve_alias p [k1; k2]).
Proof. unfold dict_get. simpl. by destruct (p !! k1), (p !! k2). Qed.

Lemma collect_rating_alias ratings (o : option value) :
  (forall v, o = Some v -> py_float rt v <> Raise OverflowError) ->
  collect_rating rt ratings (default PNone o)
  = Ok (ratings ++ option_list (o ≫= coerce rt)).
Proof.
  intros Hno. rewrite collect_rating_spec.
  destruct o as [v|]; simpl; [|by rewrite app_nil_r].
  specialize (Hno v eq_refl).
  destruct (py_float rt v) as [f|[]] eqn:Hf; unfold coerce; rewrite ?Hf;
    done.
Qed.

(** Unless [float] raises [OverflowError] on a sub-rating, the score is the
    mean of the surviving sub-ratings, and [0.0] when there is none. *)
Lemma get_property_rating_spec p :
  (forall aliases v,
      aliases ∈ sub_rating_aliases -> resolve_alias p aliases = Some v ->
      py_float rt v <> Raise OverflowError) ->
  get_property_rating rt p = Ok (arithmetic_mean (surviving_ratings rt p)).
Proof.
  intros Hno.
  pose proof (Hno [lit "airbnb_rating"; lit "airbnb"]) as Ha.
  pose proof (Hno [lit "booking_rating"; lit "booking"]) as Hb.
  assert (Hs : surviving_ratings rt p
          = option_list
              (resolve_alias p [lit "airbnb_rating"; lit "airbnb"]
                 ≫= coerce rt)
            ++ option_list
                 (resolve_alias p [lit "booking_rating"; lit "booking"]
                    ≫= coerce rt)).
  { unfold surviving_ratings, sub_rating_aliases. cbn [omap list_omap].
    by do 2 destruct (_ ≫= coerce rt). }
  rewrite Hs. unfold get_property_rating.
  rewrite !dict_get_alias. cbn [foldM].
  rewrite collect_rating_alias by (intros; apply Ha; [in_list|done]).
  cbn [mbind result_bind].
  rewrite collect_rating_alias by (intros; apply Hb; [in_list|done]).
  cbn [mbind result_bind app].
  do 2 destruct (_ ≫= coerce rt); try done.
Qed.
(** The score depends on a record only through what alias resolution
    finds for the two sub-ratings. *)
Lemma get_property_rating_resolved p q :
  Forall (fun aliases => resolve_alias p aliases = resolve_alias q aliases)
    sub_rating_aliases ->
  get_property_rating rt p = get_property_rating rt q.
Proof.
  intros H. unfold sub_rating_aliases in H.
  apply Forall_cons in H as [Ha H]. apply Forall_cons in H as [Hb _].
  unfold get_property_rating. by rewrite !dict_get_alias, Ha, Hb.
Qed.

Lemma resolve_alias_primary p primary fallback v :
  p !! primary = Some v -> resolve_alias p [primary; fallback] = Some v.
Proof. intros H. simpl. by rewrite H. Qed.

Lemma resolve_alias_fallback p primary fallback :
  p !! primary = None ->
  resolve_alias p [primary; fallback] = p !! fallback.
Proof. intros H. simpl. rewrite H. by destruct (p !! fallback). Qed.

(** The keys of one sub-rating are not keys of the other. *)
Lemma sub_rating_keys_disjoint a b k k' :
  a ∈ sub_rating_aliases -> b ∈ sub_rating_aliases -> a <> b ->
  k ∈ a -> k' ∈ b -> k <> k'.
Proof.
  unfold sub_rating_aliases.
  rewrite !elem_of_cons, !elem_of_nil.
  intros [->|[->|[]]] [->|[->|[]]] Hab; try done;
    rewrite !elem_of_cons, !elem_of_nil;
    intros [->|[->|[]]] [->|[->|[]]]; discriminate.
Qed.

Lemma sub_rating_keys_distinct primary fallback :
  [primary; fallback] ∈ sub_rating_aliases -> primary <> fallback.
Proof.
  unfold sub_rating_aliases. rewrite !elem_of_cons, elem_of_nil.
  intros [[= -> ->]|[[= -> ->]|[]]]; discriminate.
Qed.
(** C8: for every value [v], the record that holds only the field
    [airbnb], set to [v], and the record that holds only the field
    [airbnb_rating], set to [v], have the same score. *)
Theorem alias_same_score v :
  get_property_rating rt {[lit "airbnb" := v]}
  = get_property_rating rt {[lit "airbnb_rating" := v]}.
Proof.
  apply get_property_rating_resolved. unfold sub_rating_aliases.
  apply Forall_cons; split; [|apply Forall_cons; split; [|by constructor]].
  - rewrite resolve_alias_fallback by (by apply lookup_singleton_ne).
    rewrite (resolve_alias_primary _ _ _ v) by apply lookup_singleton_eq.
    apply lookup_singleton_eq.
  - simpl. by rewrite !lookup_singleton_ne.
Qed.

(** With the primary key present, the value under the fallback key plays
    no part in alias resolution. *)
Lemma resolve_alias_ignores_fallback p primary fallback v w aliases :
  [primary; fallback] ∈ sub_rating_aliases ->
  aliases ∈ sub_rating_aliases ->
  p !! primary = Some v ->
  resolve_alias (<[fallback := w]> p) aliases
  = resolve_alias (delete fallback p) aliases.
Proof.
  intros Hpair Hal Hp.
  pose proof (sub_rating_keys_distinct _ _ Hpair) as Hne.
  destruct (decide (aliases = [primary; fallback])) as [->|Hother].
  - rewrite !(resolve_alias_primary _ _ _ v); [done|..].
    + by rewrite lookup_delete_ne.
    + by rewrite lookup_insert_ne.
  - assert (Hk : forall k, k ∈ aliases -> fallback <> k).
    { intros k Hk. apply (sub_rating_keys_disjoint [primary; fallback] aliases);
        auto. in_list. }
    clear Hal Hother. induction aliases as [|k rest IH]; [done|]. simpl.
    rewrite lookup_insert_ne, lookup_delete_ne by (apply Hk; in_list).
    rewrite IH; [done|]. intros k' Hk'. apply Hk. in_list.
Qed.

(** C10: when the primary key of a sub-rating ([airbnb_rating], or
    [booking_rating]) is present with a value that the aggregator drops,
    the value under the fallback key ([airbnb], or [booking]) is not
    consulted: the score is the same whatever that value is and whether
    or not the key is there, and the record that holds just the two keys
    scores [0.0]. *)
Theorem alias_fallback_on_absence_only p primary fallback v w :
  [primary; fallback] ∈ sub_rating_aliases ->
  p !! primary = Some v ->
  discarded rt v ->
  get_property_rating rt (<[fallback := w]> p)
  = get_property_rating rt (delete fallback p)
  /\ get_property_rating rt (<[primary := v]> {[fallback := w]})
     = Ok float_zero.
Proof.
  intros Hpair Hp Hv. split.
  - apply get_property_rating_resolved, Forall_forall. intros aliases Hal.
    by apply (resolve_alias_ignores_fallback p primary fallback v).
  - pose proof (sub_rating_keys_distinct _ _ Hpair) as Hne.
    assert (Hcoerce : coerce rt v = None).
    { unfold coerce. destruct Hv as [->|[->| ->]]; done. }
    assert (Hres : forall aliases, aliases ∈ sub_rating_aliases ->
              resolve_alias (<[primary := v]> {[fallback := w]}) aliases
                ≫= coerce rt = None).
    { intros aliases Hal.
      destruct (decide (aliases = [primary; fallback])) as [->|Hother].
      - rewrite (resolve_alias_primary _ _ _ v) by apply lookup_insert_eq.
        done.
      - assert (Hnone : resolve_alias (<[primary := v]> {[fallback := w]})
                          aliases = None); [|by rewrite Hnone].
        assert (Hk : forall k, k ∈ aliases -> primary <> k /\ fallback <> k).
        { intros k Hk. split;
            apply (sub_rating_keys_disjoint [primary; fallback] aliases);
            auto; in_list. }
        clear Hal Hother. induction aliases as [|k rest IH]; [done|]. simpl.
        destruct (Hk k) as [H1 H2]; [in_list|].
        rewrite lookup_insert_ne, lookup_singleton_ne by done.
        apply IH. intros k' Hk'. apply Hk. in_list. }
    rewrite get_property_rating_spec.
    + unfold surviving_ratings, sub_rating_aliases. cbn [omap list_omap].
      rewrite !Hres by (unfold sub_rating_aliases; in_list). done.
    + intros aliases u Hal Hu Hover. specialize (Hres aliases Hal).
      rewrite Hu in Hres. simpl in Hres. unfold coerce in Hres.
      destruct (decide (aliases = [primary; fallback])) as [->|Hother].
      * rewrite (resolve_alias_primary _ _ _ v) in Hu by apply lookup_insert_eq.
        injection Hu as <-. destruct Hv as [->|[Hv|Hv]]; [done|congruence..].
      * clear Hres. revert Hu.
        assert (Hk : forall k, k ∈ aliases -> primary <> k /\ fallback <> k).
        { intros k Hk. split;
            apply (sub_rating_keys_disjoint [primary; fallback] aliases);
            auto; in_list. }
        clear Hal Hother. induction aliases as [|k rest IH]; [done|]. simpl.
        destruct (Hk k) as [H1 H2]; [in_list|].
        rewrite lookup_insert_ne, lookup_singleton_ne by done.
        apply IH. intros k' Hk'. apply Hk. in_list.
Qed.
End Rating.

(** C1: a record whose [airbnb_rating] is an integer beyond the range of
    floats.  The value is not coercible and no sub-rating survives, so the
    score would be [0.0]; the aggregator raises [OverflowError] instead. *)
Theorem rating_overflow_not_discarded (rt : runtime) :
  let p : record := {[lit "airbnb_rating" := PInt (10 ^ 400)]} in
  surviving_ratings rt p = []
  /\ arithmetic_mean (surviving_ratings rt p) = float_zero
  /\ get_property_rating rt p = Raise OverflowError.
Proof. vm_compute. done. Qed.

(** The record of C10's example: a rating that is no number, and a
    fallback that is. *)
Lemma alias_fallback_on_absence_only_witness :
  get_property_rating sample_runtime
    (<[lit "airbnb" := PInt 4]>
       {[lit "airbnb_rating" := PStr (lit "bad")]})
  = get_property_rating sample_runtime
      (delete (lit "airbnb") {[lit "airbnb_rating" := PStr (lit "bad")]})
  /\ get_property_rating sample_runtime
       (<[lit "airbnb_rating" := PStr (lit "bad")]>
          {[lit "airbnb" := PInt 4]})
     = Ok float_zero.
Proof.
  apply (alias_fallback_on_absence_only sample_runtime
           {[lit "airbnb_rating" := PStr (lit "bad")]}
           (lit "airbnb_rating") (lit "airbnb") (PStr (lit "bad")) (PInt 4)).
  - unfold sub_rating_aliases. constructor.
  - reflexivity.
  - right. left. reflexivity.
Defined.

(** ** Slices *)

Lemma py_slice_from_0 {A} (l : list A) (hi : Z) :
  py_slice l 0 hi = take (Z.to_nat (slice_bound (Z.of_nat (length l)) hi)) l.
Proof.
  unfold py_slice.
  assert (H0 : slice_bound (Z.of_nat (length l)) 0 = 0).
  { unfold slice_bound. simpl. lia. }
  rewrite H0, Z.sub_0_r. done.
Qed.

Lemma py_slice_from_0_length {A} (l : list A) (hi : Z) :
  0 <= hi ->
  length (py_slice l 0 hi) = Nat.min (Z.to_nat hi) (length l).
Proof.
  intros Hhi. rewrite py_slice_from_0, length_take. unfold slice_bound.
  destruct (Z.ltb_spec hi 0); lia.
Qed.

Lemma py_slice_from_0_prefix {A} (l : list A) (hi : Z) :
  py_slice l 0 hi `prefix_of` l.
Proof. rewrite py_slice_from_0. apply prefix_take. Qed.

(** ** The ranker *)

Section Ranking.
Variable rt : runtime.
Implicit Types (records : list record) (rated out : list (record * float)).

Lemma comprehension_ok records :
  Forall (fun p => exists f, get_property_rating rt p = Ok f) records ->
  exists rated,
    comprehension (fun p => r ← get_property_rating rt p; Ok (p, r)) records
    = Ok rated
    /\ Forall2 (entry_of rt) records rated.
Proof.
  induction 1 as [|p records [f Hf] _ (rated & Hr & Hall)].
  - exists []. by split; [|constructor].
  - exists ((p, f) :: rated). simpl. rewrite Hf. simpl. rewrite Hr. simpl.
    split; [done|]. by constructor.
Qed.

(** The ranker raises only what the aggregator raises on a record. *)
Lemma comprehension_raise records e :
  comprehension (fun p => r ← get_property_rating rt p; Ok (p, r)) records
  = Raise e ->
  exists p, p ∈ records /\ get_property_rating rt p = Raise e.
Proof.
  induction records as [|p records IH]; simpl; [done|].
  destruct (get_property_rating rt p) as [f|e'] eqn:Hp; simpl.
  - destruct (comprehension _ records) as [rated|e'']; simpl; [done|].
    intros [= ->]. destruct IH as (q & Hq & Hr); [done|].
    exists q. split; [by right|done].
  - intros [= ->]. exists p. split; [by left|done].
Qed.

(** When the aggregator returns a score for every record, the ranker
    returns the sorted entries cut at [limit]. *)
Lemma get_top_rated_properties_ok records limit :
  Forall (fun p => exists f, get_property_rating rt p = Ok f) records ->
  exists rated,
    Forall2 (entry_of rt) records rated
    /\ get_top_rated_properties rt records limit
       = Ok (py_slice (list_sort snd true rated) 0 limit).
Proof.
  intros H. destruct (comprehension_ok records H) as (rated & Hr & Hall).
  exists rated. split; [done|]. unfold get_top_rated_properties.
  by rewrite Hr.
Qed.

(** The ranker returns [min(limit, len(records))] entries, each an input
    record with its score, when the aggregator returns a score for every
    record. *)
Lemma get_top_rated_properties_length records limit :
  0 <= limit ->
  Forall (fun p => exists f, get_property_rating rt p = Ok f) records ->
  exists out,
    get_top_rated_properties rt records limit = Ok out
    /\ length out = Nat.min (Z.to_nat limit) (length records)
    /\ Forall (fun e => e.1 ∈ records /\ get_property_rating rt e.1 = Ok e.2)
         out.
Proof.
  intros Hlimit H.
  destruct (get_top_rated_properties_ok records limit H)
    as (rated & Hall & Hout).
  eexists. split; [exact Hout|]. split.
  - rewrite py_slice_from_0_length by done.
    rewrite (Permutation_length (list_sort_perm snd true rated)).
    by rewrite <- (Forall2_length _ _ _ Hall).
  - assert (Hrated : Forall (fun e => e.1 ∈ records
                               /\ get_property_rating rt e.1 = Ok e.2) rated).
    { clear Hout H. induction Hall as [|p e records rated [<- He] _ IH];
        constructor.
      - split; [by left|done].
      - eapply Forall_impl; [exact IH|]. intros e' [? ?].
        split; [by right|done]. }
    rewrite py_slice_from_0. apply Forall_take.
    by rewrite list_sort_perm.
Qed.
Lemma of_score_prefix (k : float) (l1 l2 : list (record * float)) :
  l1 `prefix_of` l2 -> of_score k l1 `prefix_of` of_score k l2.
Proof.
  intros [rest ->]. unfold of_score. rewrite filter_app.
  by apply prefix_app_r.
Qed.

(** C2, amended: for every list of records whose composite scores are all
    computed and none of which is NaN, and for every limit, the ranker
    returns a list that is sorted non-increasing by composite score, in
    which the entries of any one score stand in the order they have in the
    input. *)
Theorem rank_sorted_stable records limit :
  Forall (fun p => exists f, get_property_rating rt p = Ok f
                             /\ is_nan f = false) records ->
  exists rated out,
    Forall2 (entry_of rt) records rated
    /\ get_top_rated_properties rt records limit = Ok out
    /\ non_increasing out
    /\ forall k, of_score k out `prefix_of` of_score k rated.
Proof.
  intros H.
  assert (Hok : Forall (fun p => exists f, get_property_rating rt p = Ok f)
                  records).
  { eapply Forall_impl; [exact H|]. intros p (f & Hf & _). by exists f. }
  destruct (get_top_rated_properties_ok records limit Hok)
    as (rated & Hall & Hout).
  assert (Hnan : Forall (fun e => is_nan e.2 = false) rated).
  { clear Hout Hok. induction Hall as [|p e records rated [_ He] _ IH].
    - constructor.
    - apply Forall_cons in H as [(f & Hf & Hn) H].
      constructor; [congruence|by apply IH]. }
  exists rated, (py_slice (list_sort snd true rated) 0 limit).
  split; [done|]. split; [done|]. split.
  - pose proof (list_sort_descending_sorted snd rated Hnan) as Hs.
    rewrite py_slice_from_0. unfold non_increasing.
    rewrite <- (take_drop (Z.to_nat
                  (slice_bound (Z.of_nat (length (list_sort snd true rated)))
                     limit)) (list_sort snd true rated)) in Hs.
    by apply StronglySorted_app_1_l in Hs.
  - intros k.
    pose proof (list_sort_descending_stable snd k rated Hnan) as Hst.
    fold (of_score k (list_sort snd true rated)) in Hst.
    fold (of_score k rated) in Hst. rewrite <- Hst.
    apply of_score_prefix, py_slice_from_0_prefix.
Qed.
End Ranking.

(** C2 fails on a score that is NaN.  The first record has the ratings
    [inf] and [-inf] (what the JSON numbers [1e999] and [-1e999] decode
    to), whose mean is NaN; the ranker returns it before a record of
    score [1.0], and [1.0 <= NaN] does not hold. *)
Lemma rank_nan_not_sorted :
  let records : list record :=
    [ <[lit "airbnb_rating" := PFloat (S754_infinity false)]>
        {[lit "booking_rating" := PFloat (S754_infinity true)]};
      {[lit "airbnb_rating" := PInt 1]} ] in
  exists out,
    get_top_rated_properties sample_runtime records 5 = Ok out
    /\ out.*2 = [float_nan; float_of_Z 1]
    /\ ~ non_increasing out.
Proof.
  eexists. split; [vm_compute; reflexivity|]. split; [reflexivity|].
  unfold non_increasing. intros Hs.
  apply StronglySorted_inv in Hs as [_ Hs].
  apply Forall_cons in Hs as [Hs _]. vm_compute in Hs. discriminate.
Qed.

(** C3: a record whose rating is an integer beyond the range of floats.
    The ranker is asked for one entry of a list of one record; it raises
    the aggregator's [OverflowError] and returns no list. *)
Theorem rank_overflow_no_output (rt : runtime) :
  get_top_rated_properties rt [{[lit "airbnb_rating" := PInt (10 ^ 400)]}] 1
  = Raise OverflowError.
Proof. vm_compute. reflexivity. Qed.

Lemma rank_sorted_stable_witness :
  exists rated out,
    Forall2 (entry_of sample_runtime)
      [ {[lit "name" := PStr (lit "B")]} ;
        <[lit "name" := PStr (lit "A")]>
          (<[lit "airbnb_rating" := PInt 4]> {[lit "booking_rating" := PInt 5]}) ]
      rated
    /\ get_top_rated_properties sample_runtime
         [ {[lit "name" := PStr (lit "B")]} ;
           <[lit "name" := PStr (lit "A")]>
             (<[lit "airbnb_rating" := PInt 4]>
                {[lit "booking_rating" := PInt 5]}) ] 5
       = Ok out
    /\ non_increasing out
    /\ forall k, of_score k out `prefix_of` of_score k rated.
Proof.
  apply (rank_sorted_stable sample_runtime).
  repeat constructor.
  - exists float_zero. split; vm_compute; reflexivity.
  - eexists. split; vm_compute; reflexivity.
Defined.

(** ** Chunked delivery *)

Lemma py_slice_window {A} (l : list A) (start n : Z) :
  0 <= start < Z.of_nat (length l) -> 0 < n ->
  py_slice l start (start + n) = take (Z.to_nat n) (drop (Z.to_nat start) l).
Proof.
  intros Hs Hn. unfold py_slice, slice_bound.
  destruct (Z.ltb_spec start 0); [lia|].
  destruct (Z.ltb_spec (start + n) 0); [lia|].
  rewrite (Z.min_l start) by lia.
  destruct (Z.le_ge_cases (start + n) (Z.of_nat (length l))).
  - rewrite Z.min_l by lia. f_equal. lia.
  - rewrite Z.min_r by lia.
    rewrite !take_ge; [done|rewrite length_drop; lia..].
Qed.

Lemma split_loop_spec (text : pystr) (start : Z) (c : chat) :
  0 <= start ->
  exists chunks,
    calls (split_loop text start c)
    = calls c ++ ((if has_reply_text c then ReplyText else SendMessage)
                    <$> chunks)
    /\ Forall (fun chunk => Z.of_nat (length chunk) <= TELEGRAM_MAX_LEN) chunks
    /\ concat chunks = drop (Z.to_nat start) text
    /\ Z.of_nat (length chunks)
       = ceil_div (Z.max 0 (Z.of_nat (length text) - start)) TELEGRAM_MAX_LEN.
Proof.
  funelim (split_loop text start c); intros Hstart.
  - destruct H as (chunks & Hcalls & Hlen & Hcat & Hcount); [unfold TELEGRAM_MAX_LEN; lia|].
    rewrite py_slice_window in * by (unfold TELEGRAM_MAX_LEN; lia).
    exists (take (Z.to_nat TELEGRAM_MAX_LEN) (drop (Z.to_nat start) text) :: chunks).
    split; [|split; [|split]].
    + rewrite Hcalls. simpl. rewrite <- app_assoc.
      by destruct (has_reply_text c).
    + constructor; [|done]. rewrite length_take.
      unfold TELEGRAM_MAX_LEN. lia.
    + simpl. rewrite Hcat.
      replace (Z.to_nat (start + TELEGRAM_MAX_LEN))
        with (Z.to_nat start + Z.to_nat TELEGRAM_MAX_LEN)%nat
        by (unfold TELEGRAM_MAX_LEN; lia).
      rewrite <- drop_drop. apply take_drop.
    + simpl length. rewrite Nat2Z.inj_succ, Hcount.
      unfold ceil_div, TELEGRAM_MAX_LEN.
      set (a := Z.max 0 (Z.of_nat (length text) - (start + 4000)) + 4000 - 1).
      set (b := Z.max 0 (Z.of_nat (length text) - start) + 4000 - 1).
      pose proof (Z.div_mod a 4000 ltac:(lia)) as Ha.
      pose proof (Z.mod_pos_bound a 4000 ltac:(lia)) as Ha'.
      pose proof (Z.div_mod b 4000 ltac:(lia)) as Hb.
      pose proof (Z.mod_pos_bound b 4000 ltac:(lia)) as Hb'.
      subst a b. lia.
  - exists []. simpl. rewrite app_nil_r. split; [done|]. split; [done|].
    split.
    + rewrite drop_ge; [done|lia].
    + unfold ceil_div, TELEGRAM_MAX_LEN. rewrite Z.max_l by lia. done.
Qed.

(** C4: for every text, [split_and_send] sends consecutive chunks, each of
    at most 4000 characters, whose concatenation in order is the text; a
    text of length [L] is sent in [ceil(L / 4000)] chunks.  The chunks go
    through [reply_text] when the chat has it and through [send_message]
    otherwise. *)
Theorem split_and_send_chunks (c : chat) (text : pystr) :
  let chunks := chunks_sent c (split_and_send c text) in
  calls (split_and_send c text)
  = calls c ++ ((if has_reply_text c then ReplyText else SendMessage)
                  <$> chunks)
  /\ Forall (fun chunk => Z.of_nat (length chunk) <= 4000) chunks
  /\ concat chunks = text
  /\ Z.of_nat (length chunks) = ceil_div (Z.of_nat (length text)) 4000.
Proof.
  destruct (split_loop_spec text 0 c) as (chunks & Hcalls & Hlen & Hcat & Hn);
    [done|].
  assert (Hsent : chunks_sent c (split_and_send c text) = chunks).
  { unfold chunks_sent, split_and_send. rewrite Hcalls, drop_app_length.
    rewrite <- list_fmap_compose. rewrite <- (list_fmap_id chunks) at 2.
    apply list_fmap_ext. intros _ chunk _. by destruct (has_reply_text c). }
  cbv zeta. rewrite Hsent. split; [exact Hcalls|]. split; [|split].
  - exact Hlen.
  - by rewrite Hcat.
  - rewrite Hn. unfold TELEGRAM_MAX_LEN. f_equal. lia.
Qed.

(** The scenario of the specification: 9000 characters go out in three
    chunks, of 4000, 4000 and 1000 characters. *)
Example split_9000 :
  (fun chunk => Z.of_nat (length chunk))
    <$> chunks_sent {| has_reply_text := true; calls := [] |}
          (split_and_send {| has_reply_text := true; calls := [] |}
             (replicate (Z.to_nat 9000) 120%N))
  = [4000; 4000; 1000].
Proof. vm_compute. reflexivity. Qed.

(** ** The fetchers *)

Section Fetchers.
Variable cfg : config.
Variable requests_get : pystr -> gmap pystr pystr -> http_reply.

Lemma get_json_ok url status_code body :
  requests_get url (build_headers cfg) = Response status_code (Some body) ->
  ~ 400 <= status_code < 600 ->
  get_json cfg requests_get url = Ok body.
Proof.
  intros Hget Hstatus. unfold get_json, raise_for_status. rewrite Hget.
  destruct (Z.leb_spec 400 status_code), (Z.ltb_spec status_code 600);
    simpl; try done; lia.
Qed.

Lemma get_json_failed url :
  failed_fetch (requests_get url (build_headers cfg)) ->
  exists e, get_json cfg requests_get url = Raise e.
Proof.
  unfold get_json, failed_fetch, raise_for_status.
  destruct (requests_get url (build_headers cfg)) as [|status_code json].
  - by exists RequestException.
  - destruct (Z.leb_spec 400 status_code), (Z.ltb_spec status_code 600);
      simpl; intros [?| ->]; try lia; by eexists.
Qed.

(** The properties fetcher on a parsed body: the three shapes. *)
Lemma fetch_all_properties_body status_code body :
  requests_get (MOCKAPI_URL cfg) (build_headers cfg)
  = Response status_code (Some body) ->
  ~ 400 <= status_code < 600 ->
  fetch_all_properties cfg requests_get = records_of_body body.
Proof.
  intros Hget Hstatus. unfold fetch_all_properties.
  rewrite (get_json_ok _ _ _ Hget Hstatus). unfold records_of_body.
  cbn [mbind result_bind]. repeat case_match; congruence.
Qed.

(** The properties fetcher returns a list whatever the request does. *)
Lemma fetch_all_properties_list :
  exists l, fetch_all_properties cfg requests_get = PList l.
Proof.
  unfold fetch_all_properties.
  destruct (get_json cfg requests_get (MOCKAPI_URL cfg)) as [body|e]; simpl.
  - repeat case_match; simplify_eq; by eexists.
  - by eexists.
Qed.

(** C6, amended: when the request fails in transport, comes back with a
    client or server error status (400 to 599), or has a body that is not
    JSON, [fetch_all_properties] returns the empty list; nothing is raised
    to its caller. *)
Theorem fetch_all_properties_failure :
  failed_fetch (requests_get (MOCKAPI_URL cfg) (build_headers cfg)) ->
  fetch_all_properties cfg requests_get = PList [].
Proof.
  intros Hfail. unfold fetch_all_properties.
  destruct (get_json_failed _ Hfail) as [e He]. by rewrite He.
Qed.

(** The complaints fetcher on a parsed body: a list is returned as it
    is, and so is whatever an object holds under [data]. *)
Lemma fetch_complaints_body property_id complaints_url status_code body :
  COMPLAINTS_URL cfg = Some complaints_url -> complaints_url <> [] ->
  requests_get
    (rstrip_char 47%N complaints_url ++ lit "?property_id=" ++ property_id)
    (build_headers cfg)
  = Response status_code (Some body) ->
  ~ 400 <= status_code < 600 ->
  fetch_complaints_for_property cfg requests_get property_id
  = match body with
    | PList l => PList l
    | PDict d => default (PList []) (d !! lit "data")
    | _ => PList []
    end.
Proof.
  intros Hurl Hne Hget Hstatus. unfold fetch_complaints_for_property.
  rewrite Hurl. rewrite bool_decide_eq_false_2 by done.
  rewrite (get_json_ok _ _ _ Hget Hstatus).
  cbn [mbind result_bind]. destruct body as [| | | | |l|d]; try done.
  by destruct (d !! lit "data").
Qed.
End Fetchers.

(** C5: an object whose [data] key holds a string.  The properties
    fetcher returns the empty list for this body; the complaints fetcher
    returns the string. *)
Theorem complaints_data_not_a_list :
  let body := PDict {[lit "data" := PStr (lit "unavailable")]} in
  let network := always (Response 200 (Some body)) in
  fetch_all_properties sample_config network = PList []
  /\ fetch_complaints_for_property sample_config network (lit "7")
     = PStr (lit "unavailable").
Proof. split; vm_compute; reflexivity. Qed.

(** C6 fails for a status other than 200 that is no error status: a
    response of status 203 with a list as body is returned, not dropped. *)
Lemma fetch_all_properties_status_203 :
  ~ (forall cfg requests_get,
        failed_or_not_200 (requests_get (MOCKAPI_URL cfg) (build_headers cfg)) ->
        fetch_all_properties cfg requests_get = PList []).
Proof.
  intros H.
  specialize (H sample_config
                (always (Response 203 (Some (PList [PDict ∅]))))).
  assert (Hget : fetch_all_properties sample_config
                   (always (Response 203 (Some (PList [PDict ∅]))))
                 = PList [PDict ∅]) by (vm_compute; reflexivity).
  rewrite Hget in H. discriminate H. simpl. left. lia.
Qed.

Lemma fetch_all_properties_failure_witness :
  fetch_all_properties sample_config (always (Response 500 None)) = PList [].
Proof.
  apply (fetch_all_properties_failure sample_config
           (always (Response 500 None))).
  simpl. left. lia.
Defined.

(** ** The formatters *)

Section Formatters.
Variable rt : runtime.
Implicit Types (p c : record) (v : value) (d : pystr).

Lemma dict_get_delete_ne p k k' v :
  k <> k' -> dict_get (delete k p) k' v = dict_get p k' v.
Proof. intros Hne. unfold dict_get. by rewrite lookup_delete_ne. Qed.

Lemma dict_get_absent p k v : p !! k = None -> dict_get p k v = v.
Proof. intros H. unfold dict_get. by rewrite H. Qed.

Lemma dict_get_present p k v w : p !! k = Some w -> dict_get p k v = w.
Proof. intros H. unfold dict_get. by rewrite H. Qed.

Lemma dict_get_alias3 p k1 k2 k3 v :
  dict_get p k1 (dict_get p k2 (dict_get p k3 v))
  = default v (resolve_alias p [k1; k2; k3]).
Proof.
  unfold dict_get. simpl. by destruct (p !! k1), (p !! k2), (p !! k3).
Qed.

Lemma py_slice_200 d :
  py_slice d 0 200 = take 200 d.
Proof.
  rewrite py_slice_from_0. unfold slice_bound. simpl.
  destruct (Z.le_ge_cases 200 (Z.of_nat (length d))).
  - by rewrite Z.min_l.
  - rewrite Z.min_r, Nat2Z.id by done. rewrite !take_ge; [done|lia..].
Qed.

Lemma str_join_snoc sep (lines : list pystr) (x : pystr) :
  lines <> [] ->
  str_join sep (lines ++ [x]) = str_join sep lines ++ sep ++ x.
Proof.
  induction lines as [|y [|z lines] IH]; intros Hne; [done|done|].
  change (str_join sep ((y :: z :: lines) ++ [x]))
    with (y ++ sep ++ str_join sep ((z :: lines) ++ [x])).
  rewrite IH by done.
  change (str_join sep (y :: z :: lines))
    with (y ++ sep ++ str_join sep (z :: lines)).
  by rewrite <- !app_assoc.
Qed.

(** C7: a complaint whose description is a string [d].  The formatted
    text ends with a line that holds the label, then the first 200
    characters of [d] and an ellipsis when [d] is longer than 200
    characters, and [d] itself with nothing after it otherwise. *)
Theorem format_complaint_description c d :
  resolve_alias c description_aliases = Some (PStr d) ->
  exists head,
    format_complaint rt c
    = Ok (head ++ nl ++ lit "   Description: "
            ++ (if 200 <? Z.of_nat (length d)
                then take 200 d ++ lit "..." else d)).
Proof.
  intros Hd. unfold format_complaint.
  rewrite (dict_get_alias3 c (lit "description") (lit "message") (lit "text")).
  fold description_aliases. rewrite Hd.
  cbn [default from_option id description_slice py_len mbind result_bind
       py_str].
  rewrite py_slice_200, str_join_snoc by (by repeat case_match).
  eexists. f_equal. f_equal. f_equal. f_equal.
  destruct (200 <? Z.of_nat (length d)) eqn:Hlen; [done|].
  apply Z.ltb_ge in Hlen. rewrite app_nil_r. apply take_ge. lia.
Qed.
(** C9, amended: a property record without [location] and with an
    [address].  The basic listing line resolves the location through
    [location], then [address]: it is the line of the record without the
    address, followed by [" - "] and the address when the address is
    truthy, and by nothing when it is not.  The detailed format has a
    location line for the key [location] alone: the address plays no part
    in it. *)
Theorem location_alias p v :
  p !! lit "location" = None ->
  p !! lit "address" = Some v ->
  format_property_basic rt p
  = format_property_basic rt (delete (lit "address") p)
      ++ (if truthy v then lit " - " ++ py_str rt v else [])
  /\ format_property rt p = format_property rt (delete (lit "address") p).
Proof.
  intros Hloc Haddr. split.
  - unfold format_property_basic.
    rewrite !dict_get_delete_ne by discriminate.
    rewrite !(dict_get_absent p (lit "location")) by done.
    rewrite (dict_get_present p (lit "address") _ v) by done.
    rewrite (dict_get_absent (delete (lit "address") p) (lit "address"))
      by apply lookup_delete_eq.
    cbn [truthy]. rewrite bool_decide_eq_true_2 by done. cbn [negb].
    by rewrite app_nil_r, <- !app_assoc.
  - unfold format_property.
    rewrite !dict_get_delete_ne by discriminate.
    by rewrite !lookup_delete_ne by discriminate.
Qed.
End Formatters.

Lemma format_complaint_description_witness :
  exists head,
    format_complaint sample_runtime
      {[lit "description" := PStr (replicate (Z.to_nat 250) 120%N)]}
    = Ok (head ++ nl ++ lit "   Description: "
            ++ (if 200 <? Z.of_nat (length (replicate (Z.to_nat 250) 120%N))
                then take 200 (replicate (Z.to_nat 250) 120%N) ++ lit "..."
                else replicate (Z.to_nat 250) 120%N)).
Proof.
  apply (format_complaint_description sample_runtime
           {[lit "description" := PStr (replicate (Z.to_nat 250) 120%N)]}
           (replicate (Z.to_nat 250) 120%N)).
  reflexivity.
Defined.

(** C9 fails for the detailed format: the text for a record with an
    [address] and no [location] does not show the address. *)
Lemma format_property_without_address :
  ~ (forall rt (p : record) v,
        p !! lit "location" = None -> p !! lit "address" = Some v ->
        contains (py_str rt v) (format_property rt p) = true
        /\ contains (py_str rt v) (format_property_basic rt p) = true).
Proof.
  intros H.
  destruct (H sample_runtime {[lit "address" := PStr (lit "12 Main St")]}
              (PStr (lit "12 Main St"))) as [Hshown _];
    [reflexivity..|].
  vm_compute in Hshown. discriminate.
Qed.

Lemma location_alias_witness :
  format_property_basic sample_runtime
    {[lit "address" := PStr (lit "12 Main St")]}
  = format_property_basic sample_runtime
      (delete (lit "address") {[lit "address" := PStr (lit "12 Main St")]})
      ++ (if truthy (PStr (lit "12 Main St"))
          then lit " - " ++ py_str sample_runtime (PStr (lit "12 Main St"))
          else [])
  /\ format_property sample_runtime
       {[lit "address" := PStr (lit "12 Main St")]}
     = format_property sample_runtime
         (delete (lit "address")
            {[lit "address" := PStr (lit "12 Main St")]}).
Proof.
  apply (location_alias sample_runtime
           {[lit "address" := PStr (lit "12 Main St")]}
           (PStr (lit "12 Main St"))); reflexivity.
Defined.

(** ** Scenarios of the specification *)

(** Ratings ["4.5"] and [5] have the mean [4.75]. *)
Example score_of_two_ratings :
  Some (get_property_rating sample_runtime
          (<[lit "airbnb_rating" := PStr (lit "4.5")]>
             {[lit "booking_rating" := PInt 5]}))
  = Ok <$> decimal_float (lit "4.75").
Proof. vm_compute. reflexivity. Qed.

(** A record without sub-ratings scores [0.0]. *)
Example score_without_ratings :
  get_property_rating sample_runtime {[lit "name" := PStr (lit "A")]}
  = Ok float_zero.
Proof. vm_compute. reflexivity. Qed.

(** Properties A (ratings 4 and 5) and B (rating 3 under [airbnb]) rank as
    A with 4.5, then B with 3.0. *)
Example rank_of_two_properties :
  exists out,
    get_top_rated_properties sample_runtime
      [ <[lit "name" := PStr (lit "A")]>
          (<[lit "airbnb_rating" := PInt 4]>
             {[lit "booking_rating" := PInt 5]});
        <[lit "name" := PStr (lit "B")]> {[lit "airbnb" := PInt 3]} ]
      5
    = Ok out
    /\ (fun e : record * float => (e.1 !! lit "name", e.2)) <$> out
       = [ (Some (PStr (lit "A")), fdiv (float_of_Z 9) (float_of_Z 2));
           (Some (PStr (lit "B")), float_of_Z 3) ].
Proof. eexists. split; vm_compute; reflexivity. Qed.

(** * Further properties of the code *)

(** ** The rating aggregator: outcome and inputs *)

Section RatingOutcome.
Variable rt : runtime.
Implicit Types (p : record) (v : value).

Local Abbreviation overflows := (overflows rt).

Lemma collect_rating_overflow ratings (o : option value) v :
  o = Some v -> py_float rt v = Raise OverflowError ->
  collect_rating rt ratings (default PNone o) = Raise OverflowError.
Proof.
  intros -> Hv. simpl. rewrite collect_rating_spec, Hv.
  by destruct v.
Qed.

Lemma overflows_dec p aliases :
  overflows p aliases
  \/ (forall v, resolve_alias p aliases = Some v ->
                py_float rt v <> Raise OverflowError).
Proof.
  unfold overflows. destruct (resolve_alias p aliases) as [v|].
  - destruct (py_float rt v) as [f|[]] eqn:Hv;
      try (right; intros ? [= <-]; congruence).
    left. by exists v.
  - right. intros v [=].
Qed.

(** X1: unless [float] raises [OverflowError] on one of the two
    sub-ratings that alias resolution finds, the aggregator returns the
    arithmetic mean of the sub-ratings that are present and coercible,
    and [0.0] when there is none. *)
Theorem score_is_mean_of_surviving p :
  ~ overflows p [lit "airbnb_rating"; lit "airbnb"] ->
  ~ overflows p [lit "booking_rating"; lit "booking"] ->
  get_property_rating rt p = Ok (arithmetic_mean (surviving_ratings rt p))
  /\ (surviving_ratings rt p = [] ->
      get_property_rating rt p = Ok float_zero).
Proof.
  intros Ha Hb.
  assert (Hok : get_property_rating rt p
                = Ok (arithmetic_mean (surviving_ratings rt p))).
  { apply get_property_rating_spec. intros aliases v Hal Hres Hover.
    unfold sub_rating_aliases in Hal.
    rewrite !elem_of_cons, elem_of_nil in Hal.
    destruct Hal as [->|[->|[]]]; [apply Ha|apply Hb]; by exists v. }
  split; [done|]. intros Hnone. by rewrite Hok, Hnone.
Qed.

(** X2: the aggregator raises nothing but [OverflowError], and it raises
    it exactly when [float] does on a sub-rating that alias resolution
    finds (an integer beyond the range of floats). *)
Theorem score_raises_only_overflow p e :
  get_property_rating rt p = Raise e
  <-> e = OverflowError
      /\ exists aliases, aliases ∈ sub_rating_aliases /\ overflows p aliases.
Proof.
  split.
  - intros Hraise.
    destruct (overflows_dec p [lit "airbnb_rating"; lit "airbnb"])
      as [Ha|Ha].
    + assert (He : get_property_rating rt p = Raise OverflowError).
      { destruct Ha as (v & Hres & Hv). unfold get_property_rating.
        rewrite !dict_get_alias. cbn [foldM].
        by rewrite (collect_rating_overflow _ _ v). }
      rewrite He in Hraise. injection Hraise as <-. split; [done|].
      eexists. split; [|exact Ha]. in_list.
    + destruct (overflows_dec p [lit "booking_rating"; lit "booking"])
        as [Hb|Hb].
      * assert (He : get_property_rating rt p = Raise OverflowError).
        { destruct Hb as (v & Hres & Hv). unfold get_property_rating.
          rewrite !dict_get_alias. cbn [foldM].
          rewrite collect_rating_alias by done. cbn [mbind result_bind].
          by rewrite (collect_rating_overflow _ _ v). }
        rewrite He in Hraise. injection Hraise as <-. split; [done|].
        eexists. split; [|exact Hb]. in_list.
      * rewrite get_property_rating_spec in Hraise; [done|].
        intros aliases v Hal. unfold sub_rating_aliases in Hal.
        rewrite !elem_of_cons, elem_of_nil in Hal.
        destruct Hal as [->|[->|[]]]; auto.
  - intros [-> (aliases & Hal & Hover)].
    unfold sub_rating_aliases in Hal.
    rewrite !elem_of_cons, elem_of_nil in Hal.
    destruct Hal as [->|[->|[]]].
    + destruct Hover as (v & Hres & Hv). unfold get_property_rating.
      rewrite !dict_get_alias. cbn [foldM].
      by rewrite (collect_rating_overflow _ _ v).
    + destruct (overflows_dec p [lit "airbnb_rating"; lit "airbnb"])
        as [Ha|Ha].
      * destruct Ha as (v & Hres & Hv). unfold get_property_rating.
        rewrite !dict_get_alias. cbn [foldM].
        by rewrite (collect_rating_overflow _ _ v).
      * destruct Hover as (v & Hres & Hv). unfold get_property_rating.
        rewrite !dict_get_alias. cbn [foldM].
        rewrite collect_rating_alias by done. cbn [mbind result_bind].
        by rewrite (collect_rating_overflow _ _ v).
Qed.

(** X3: the score reads the four rating keys only: a value stored under
    any other key does not change it. *)
Theorem score_ignores_other_fields p k v :
  Forall (fun aliases => k ∉ aliases) sub_rating_aliases ->
  get_property_rating rt (<[k := v]> p) = get_property_rating rt p
  /\ get_property_rating rt (delete k p) = get_property_rating rt p.
Proof.
  intros Hk.
  split; apply get_property_rating_resolved;
    (eapply Forall_impl; [exact Hk|]); intros aliases Hnot;
    induction aliases as [|k' rest IH]; try done; simpl;
    rewrite ?lookup_insert_ne, ?lookup_delete_ne
      by (intros ->; apply Hnot; by left);
    rewrite IH; try done; intros Hin; apply Hnot; by right.
Qed.
End RatingOutcome.

(** ** The ranker: length, prefixes, failure *)

Section RankingOutcome.
Variable rt : runtime.
Implicit Types (records : list record) (rated out : list (record * float)).

Local Abbreviation scored :=
  (fun p : record => exists f, get_property_rating rt p = Ok f).

(** Whatever the aggregator raises is [OverflowError]. *)
Lemma get_property_rating_raise (p : record) e :
  get_property_rating rt p = Raise e -> e = OverflowError.
Proof.
  intros Hraise.
  destruct (overflows_dec rt p [lit "airbnb_rating"; lit "airbnb"])
    as [(v & Hres & Hv)|Ha].
  - unfold get_property_rating in Hraise.
    rewrite !dict_get_alias in Hraise. cbn [foldM] in Hraise.
    rewrite (collect_rating_overflow rt _ _ v) in Hraise by done.
    by injection Hraise.
  - destruct (overflows_dec rt p [lit "booking_rating"; lit "booking"])
      as [(v & Hres & Hv)|Hb].
    + unfold get_property_rating in Hraise.
      rewrite !dict_get_alias in Hraise. cbn [foldM] in Hraise.
      rewrite collect_rating_alias in Hraise by done.
      cbn [mbind result_bind] in Hraise.
      rewrite (collect_rating_overflow rt _ _ v) in Hraise by done.
      by injection Hraise.
    + rewrite get_property_rating_spec in Hraise; [done|].
      intros aliases v Hal. unfold sub_rating_aliases in Hal.
      rewrite !elem_of_cons, elem_of_nil in Hal.
      destruct Hal as [->|[->|[]]]; auto.
Qed.

Lemma comprehension_raises records (p : record) e :
  p ∈ records -> get_property_rating rt p = Raise e ->
  exists e',
    comprehension (fun p => r ← get_property_rating rt p; Ok (p, r)) records
    = Raise e'.
Proof.
  intros Hin Hp. induction records as [|q records IH]; [by inv Hin|].
  simpl. destruct (get_property_rating rt q) as [f|e'] eqn:Hq; simpl.
  - apply elem_of_cons in Hin as [->|Hin]; [congruence|].
    destruct (IH Hin) as [e' He']. exists e'. by rewrite He'.
  - by exists e'.
Qed.

Lemma slice_bound_nat (len limit : Z) :
  0 <= len ->
  0 <= slice_bound len limit <= len.
Proof. unfold slice_bound. destruct (Z.ltb_spec limit 0); lia. Qed.

(** X4: when the aggregator returns a score for every record, the ranker
    returns the first [min(limit, len(records))] entries for a limit that
    is not negative, and all but the last [-limit] entries for a negative
    one; every entry is an input record with its score. *)
Theorem rank_length_any_limit records limit :
  Forall scored records ->
  exists out,
    get_top_rated_properties rt records limit = Ok out
    /\ Z.of_nat (length out)
       = (if limit <? 0 then Z.max (Z.of_nat (length records) + limit) 0
          else Z.min limit (Z.of_nat (length records)))
    /\ Forall (fun e => e.1 ∈ records /\ get_property_rating rt e.1 = Ok e.2)
         out.
Proof.
  intros H.
  destruct (get_top_rated_properties_ok rt records limit H)
    as (rated & Hall & Hout).
  eexists. split; [exact Hout|]. split.
  - rewrite py_slice_from_0, length_take.
    rewrite (Permutation_length (list_sort_perm snd true rated)).
    rewrite <- (Forall2_length _ _ _ Hall).
    pose proof (slice_bound_nat (Z.of_nat (length records)) limit
                  ltac:(lia)) as Hb.
    rewrite Nat.min_l by lia. rewrite Z2Nat.id by lia.
    unfold slice_bound. destruct (Z.ltb_spec limit 0); lia.
  - assert (Hrated : Forall (fun e => e.1 ∈ records
                               /\ get_property_rating rt e.1 = Ok e.2) rated).
    { clear Hout H. induction Hall as [|p e records rated [<- He] _ IH];
        constructor.
      - split; [by left|done].
      - eapply Forall_impl; [exact IH|]. intros e' [? ?].
        split; [by right|done]. }
    rewrite py_slice_from_0. apply Forall_take.
    by rewrite list_sort_perm.
Qed.

(** X5: the ranking for a smaller limit is the beginning of the ranking
    for a larger one (the top 5 are the first 5 of the top 20). *)
Theorem rank_smaller_limit_is_prefix records (a b : Z) :
  0 <= a <= b ->
  Forall scored records ->
  exists top_a top_b,
    get_top_rated_properties rt records a = Ok top_a
    /\ get_top_rated_properties rt records b = Ok top_b
    /\ top_a `prefix_of` top_b.
Proof.
  intros Hab H.
  destruct (comprehension_ok rt records H) as (rated & Hr & _).
  unfold get_top_rated_properties. rewrite Hr. cbn [mbind result_bind].
  do 2 eexists. split; [done|]. split; [done|].
  rewrite !py_slice_from_0.
  set (l := list_sort snd true rated).
  set (na := Z.to_nat (slice_bound (Z.of_nat (length l)) a)).
  set (nb := Z.to_nat (slice_bound (Z.of_nat (length l)) b)).
  assert (Hle : (na <= nb)%nat).
  { subst na nb. unfold slice_bound.
    destruct (Z.ltb_spec a 0), (Z.ltb_spec b 0); lia. }
  replace (take na l) with (take na (take nb l)).
  - apply prefix_take.
  - rewrite take_take. f_equal. lia.
Qed.

(** X6: the ranker raises exactly when the aggregator raises on one of
    the records, whatever the limit (also for a limit of 0), and what it
    raises is [OverflowError]. *)
Theorem rank_raises_iff records limit e :
  get_top_rated_properties rt records limit = Raise e
  <-> e = OverflowError
      /\ exists p, p ∈ records
                   /\ get_property_rating rt p = Raise OverflowError.
Proof.
  unfold get_top_rated_properties. split.
  - destruct (comprehension _ records) as [rated|e'] eqn:Hc; [done|].
    cbn [mbind result_bind]. intros [= ->].
    destruct (comprehension_raise rt records e Hc) as (p & Hin & Hp).
    pose proof (get_property_rating_raise p e Hp) as ->.
    split; [done|]. by exists p.
  - intros [-> (p & Hin & Hp)].
    destruct (comprehension_raises records p _ Hin Hp) as [e' He'].
    rewrite He'. cbn [mbind result_bind].
    destruct (comprehension_raise rt records e' He') as (q & _ & Hq).
    by rewrite (get_property_rating_raise q e' Hq).
Qed.

(** X7: with a limit of at least the number of records, the ranking
    holds every record with its score once: it is a rearrangement of the
    scored input. *)
Theorem rank_all_is_rearrangement records limit :
  Z.of_nat (length records) <= limit ->
  Forall scored records ->
  exists rated out,
    Forall2 (entry_of rt) records rated
    /\ get_top_rated_properties rt records limit = Ok out
    /\ out ≡ₚ rated.
Proof.
  intros Hlimit H.
  destruct (get_top_rated_properties_ok rt records limit H)
    as (rated & Hall & Hout).
  exists rated. eexists. split; [done|]. split; [exact Hout|].
  rewrite py_slice_from_0, take_ge; [apply list_sort_perm|].
  rewrite (Permutation_length (list_sort_perm snd true rated)).
  rewrite <- (Forall2_length _ _ _ Hall).
  unfold slice_bound.
  destruct (Z.ltb_spec limit 0); lia.
Qed.
End RankingOutcome.

(** ** Chunked delivery: the size of each chunk *)

Lemma split_loop_sizes (text : pystr) (start : Z) (c : chat) :
  0 <= start ->
  exists chunks,
    calls (split_loop text start c)
    = calls c ++ ((if has_reply_text c then ReplyText else SendMessage)
                    <$> chunks)
    /\ (chunks = [] <-> Z.of_nat (length text) <= start)
    /\ Forall (fun chunk => chunk <> []) chunks
    /\ (forall i chunk,
          chunks !! i = Some chunk -> (S i < length chunks)%nat ->
          Z.of_nat (length chunk) = TELEGRAM_MAX_LEN).
Proof.
  funelim (split_loop text start c); intros Hstart.
  - destruct H as (chunks & Hcalls & Hnil & Hne & Hfull);
      [unfold TELEGRAM_MAX_LEN; lia|].
    rewrite py_slice_window in * by (unfold TELEGRAM_MAX_LEN; lia).
    set (chunk := take (Z.to_nat TELEGRAM_MAX_LEN)
                    (drop (Z.to_nat start) text)) in *.
    assert (Hlen : length chunk
                   = Nat.min (Z.to_nat TELEGRAM_MAX_LEN)
                       (length text - Z.to_nat start)).
    { subst chunk. by rewrite length_take, length_drop. }
    exists (chunk :: chunks). split; [|split; [|split]].
    + rewrite Hcalls. simpl. rewrite <- app_assoc.
      by destruct (has_reply_text c).
    + split; [done|lia].
    + constructor; [|done]. intros Hnone.
      rewrite Hnone in Hlen. cbn [length] in Hlen.
      unfold TELEGRAM_MAX_LEN in Hlen. lia.
    + intros [|i] chunk' Hi Hlast.
      * injection Hi as <-. cbn [length] in Hlast.
        assert (Hmore : chunks <> []).
        { intros ->. cbn [length] in Hlast. lia. }
        assert (~ Z.of_nat (length text) <= start + TELEGRAM_MAX_LEN)
          by (intros Hle; by apply Hmore, Hnil).
        rewrite Hlen. unfold TELEGRAM_MAX_LEN in *. lia.
      * cbn [length] in Hlast. apply (Hfull i); [exact Hi|lia].
  - exists []. simpl. rewrite app_nil_r. split; [done|]. split;
      [split; [lia|done]|]. split; [constructor|].
    intros i chunk Hi. by rewrite lookup_nil in Hi.
Qed.

(** X8: [split_and_send] sends no empty chunk, every chunk but the last
    has exactly 4000 characters, and for the empty text it sends
    nothing. *)
Theorem split_and_send_chunk_sizes (c : chat) (text : pystr) :
  let chunks := chunks_sent c (split_and_send c text) in
  Forall (fun chunk => chunk <> []) chunks
  /\ (forall i chunk,
        chunks !! i = Some chunk -> (S i < length chunks)%nat ->
        Z.of_nat (length chunk) = 4000)
  /\ (chunks = [] <-> text = []).
Proof.
  destruct (split_loop_sizes text 0 c) as (chunks & Hcalls & Hnil & Hne & Hfull);
    [done|].
  assert (Hsent : chunks_sent c (split_and_send c text) = chunks).
  { unfold chunks_sent, split_and_send. rewrite Hcalls, drop_app_length.
    rewrite <- list_fmap_compose. rewrite <- (list_fmap_id chunks) at 2.
    apply list_fmap_ext. intros _ chunk _. by destruct (has_reply_text c). }
  cbv zeta. rewrite Hsent. split; [done|]. split; [exact Hfull|].
  rewrite Hnil. destruct text; simpl; split; intros; try done; lia.
Qed.

(** ** The fetchers: shapes, failures, configuration *)

Lemma rstrip_char_snoc (c : N) (s : pystr) :
  rstrip_char c (s ++ [c]) = rstrip_char c s.
Proof.
  unfold rstrip_char. rewrite reverse_snoc. simpl.
  by rewrite N.eqb_refl.
Qed.

Section FetcherOutcome.
Variable cfg : config.
Variable requests_get : pystr -> gmap pystr pystr -> http_reply.

(** X9: [fetch_all_properties] on a response that is no error (a status
    outside 400 to 599 and a JSON body): a list body is returned as it
    is, an object whose [data] key holds a list gives that list, and
    every other body gives the empty list. *)
Theorem fetch_all_properties_shapes status_code body :
  requests_get (MOCKAPI_URL cfg) (build_headers cfg)
  = Response status_code (Some body) ->
  ~ 400 <= status_code < 600 ->
  (forall l, body = PList l ->
             fetch_all_properties cfg requests_get = PList l)
  /\ (forall d l, body = PDict d -> d !! lit "data" = Some (PList l) ->
                  fetch_all_properties cfg requests_get = PList l)
  /\ ((forall l, body <> PList l) ->
      (forall d l, body = PDict d -> d !! lit "data" <> Some (PList l)) ->
      fetch_all_properties cfg requests_get = PList []).
Proof.
  intros Hget Hstatus.
  rewrite (fetch_all_properties_body cfg requests_get _ _ Hget Hstatus).
  split; [|split].
  - by intros l ->.
  - intros d l -> Hd. simpl. by rewrite Hd.
  - intros Hlist Hdata. destruct body as [| | | | |l|d]; try done.
    + by destruct (Hlist l).
    + simpl. destruct (d !! lit "data") as [[| | | | |l|]|] eqn:Hd; try done.
      by destruct (Hdata d l).
Qed.

(** X10: without a [COMPLAINTS_URL] (unset or empty) the complaints
    fetcher returns the empty list and makes no request: the result is
    the same on every network. *)
Theorem fetch_complaints_unconfigured property_id :
  COMPLAINTS_URL cfg = None \/ COMPLAINTS_URL cfg = Some [] ->
  forall network,
    fetch_complaints_for_property cfg network property_id = PList [].
Proof.
  intros [H|H] network; unfold fetch_complaints_for_property; by rewrite H.
Qed.

(** X11: when the complaints request fails in transport, comes back with
    a status from 400 to 599, or has a body that is not JSON, the
    complaints fetcher returns the empty list. *)
Theorem fetch_complaints_failure property_id complaints_url :
  COMPLAINTS_URL cfg = Some complaints_url ->
  failed_fetch
    (requests_get
       (rstrip_char 47%N complaints_url ++ lit "?property_id=" ++ property_id)
       (build_headers cfg)) ->
  fetch_complaints_for_property cfg requests_get property_id = PList [].
Proof.
  intros Hurl Hfail. unfold fetch_complaints_for_property. rewrite Hurl.
  case_bool_decide; [done|].
  destruct (get_json_failed cfg requests_get _ Hfail) as [e He].
  by rewrite He.
Qed.

(** X12: a slash at the end of a [COMPLAINTS_URL] that is not empty makes
    no difference: the request and the result are the same with and
    without it. *)
Theorem fetch_complaints_trailing_slash property_id complaints_url :
  complaints_url <> [] ->
  fetch_complaints_for_property
    (with_complaints_url cfg (Some (complaints_url ++ lit "/")))
    requests_get property_id
  = fetch_complaints_for_property
      (with_complaints_url cfg (Some complaints_url))
      requests_get property_id.
Proof.
  intros Hne. unfold fetch_complaints_for_property. cbn [COMPLAINTS_URL with_complaints_url].
  rewrite !bool_decide_eq_false_2; [|done|by destruct complaints_url].
  change (lit "/") with [47%N]. by rewrite rstrip_char_snoc.
Qed.

(** X13: [build_headers] sends the key under the configured header name,
    after the prefix and a space (alone when the prefix is empty), in
    place of a default header of that name; the other headers are the two
    defaults, and without a key there is nothing else. *)
Theorem build_headers_key :
  (forall key, MOCKAPI_KEY cfg = Some key -> key <> [] ->
     build_headers cfg !! MOCKAPI_KEY_HEADER cfg
     = Some ((if bool_decide (MOCKAPI_KEY_PREFIX cfg = []) then []
              else MOCKAPI_KEY_PREFIX cfg ++ lit " ") ++ key)
     /\ forall name, name <> MOCKAPI_KEY_HEADER cfg ->
          build_headers cfg !! name = default_headers !! name)
  /\ (MOCKAPI_KEY cfg = None \/ MOCKAPI_KEY cfg = Some [] ->
      build_headers cfg = default_headers).
Proof.
  unfold build_headers. fold default_headers. split.
  - intros key Hkey Hne. rewrite Hkey.
    rewrite bool_decide_eq_false_2 by done. split.
    + apply lookup_insert_eq.
    + intros name Hname. by rewrite lookup_insert_ne.
  - by intros [-> | ->].
Qed.
End FetcherOutcome.

(** ** The properties-list fetcher and the fetcher of one property *)

Section FetchOne.
Variable rt : runtime.
Variable cfg : config.
Variable requests_get : pystr -> gmap pystr pystr -> http_reply.

Local Abbreviation single_url property_id :=
  (rstrip_char 47%N (MOCKAPI_URL cfg) ++ lit "/" ++ property_id).

(** X14: with [PROPERTIES_URL] empty, or equal to [MOCKAPI_URL],
    [fetch_properties_list] returns what [fetch_all_properties] returns. *)
Theorem fetch_properties_list_default (PROPERTIES_URL : pystr) :
  PROPERTIES_URL = [] \/ PROPERTIES_URL = MOCKAPI_URL cfg ->
  fetch_properties_list cfg PROPERTIES_URL requests_get
  = fetch_all_properties cfg requests_get.
Proof.
  intros H. unfold fetch_properties_list, fetch_all_properties.
  assert (Hurl : (if bool_decide (PROPERTIES_URL = []) then MOCKAPI_URL cfg
                  else PROPERTIES_URL) = MOCKAPI_URL cfg).
  { case_bool_decide; [done|]. by destruct H. }
  by rewrite Hurl.
Qed.

(** X15: the two fetchers of properties return a list whatever the
    request does and whatever the body holds. *)
Theorem properties_fetchers_return_lists (PROPERTIES_URL : pystr) :
  (exists l, fetch_all_properties cfg requests_get = PList l)
  /\ (exists l,
        fetch_properties_list cfg PROPERTIES_URL requests_get = PList l).
Proof.
  split; [apply fetch_all_properties_list|].
  unfold fetch_properties_list.
  destruct (get_json cfg requests_get _) as [body|e]; simpl.
  - repeat case_match; simplify_eq; by eexists.
  - by eexists.
Qed.

Lemma scan_for_id_found property_id all_props (p : value) :
  scan_for_id rt property_id all_props = Some p ->
  p = PDict ∅
  \/ exists d, p = PDict d /\ p ∈ all_props
               /\ py_str rt (dict_get d (lit "id") PNone) = property_id.
Proof.
  induction all_props as [|q rest IH]; simpl.
  - intros [= <-]. by left.
  - destruct q as [| | | | | |d]; try done.
    case_bool_decide as Hid.
    + intros [= <-]. right. exists d. split; [done|]. split; [by left|done].
    + intros Hrest. destruct (IH Hrest) as [->|(d' & -> & Hin & Hd')];
        [by left|].
      right. exists d'. split; [done|]. split; [by right|done].
Qed.

(** When the request for [MOCKAPI_URL/<id>] comes back with status
    200, [fetch_property_by_id] returns the decoded body as it is, and
    the empty dict when the body is not JSON; the list of all properties
    is not consulted. *)
Lemma fetch_property_by_id_direct property_id json :
  requests_get (single_url property_id) (build_headers cfg)
  = Response 200 json ->
  fetch_property_by_id rt cfg requests_get property_id
  = default (PDict ∅) json.
Proof. intros Hget. unfold fetch_property_by_id. by rewrite Hget. Qed.

(** X16: when the request for [MOCKAPI_URL/<id>] fails or has another
    status than 200,
    [fetch_property_by_id] returns the empty dict or a dict of the list
    that [fetch_all_properties] returns whose [id], as text, is the
    requested one. *)
Theorem fetch_property_by_id_fallback property_id :
  (forall json, requests_get (single_url property_id) (build_headers cfg)
                <> Response 200 json) ->
  fetch_property_by_id rt cfg requests_get property_id = PDict ∅
  \/ exists d all_props,
       fetch_property_by_id rt cfg requests_get property_id = PDict d
       /\ fetch_all_properties cfg requests_get = PList all_props
       /\ PDict d ∈ all_props
       /\ py_str rt (dict_get d (lit "id") PNone) = property_id.
Proof.
  intros Hnot. unfold fetch_property_by_id.
  destruct (requests_get (single_url property_id) (build_headers cfg))
    as [|status_code json] eqn:Hget; [by left|].
  destruct (Z.eqb_spec status_code 200) as [->|Hstatus];
    [by destruct (Hnot json)|].
  destruct (fetch_all_properties cfg requests_get) as [| | | | |l|] eqn:Hall;
    try by left.
  destruct (scan_for_id rt property_id l) as [p|] eqn:Hscan; [|by left].
  destruct (scan_for_id_found _ _ _ Hscan) as [->|(d & -> & Hin & Hd)];
    [by left|].
  right. by exists d, l.
Qed.

(** X17: when the request for [MOCKAPI_URL/<id>] has another status than
    200, the fetched list is searched in order: behind dicts
    whose [id] is another one, the first dict whose [id], as text, is the
    requested one is returned. *)
Theorem fetch_property_by_id_first_match (property_id : pystr)
    (status_code : Z) (json : option value)
    (before behind : list value) (d : record) :
  requests_get (single_url property_id) (build_headers cfg)
  = Response status_code json ->
  status_code <> 200 ->
  fetch_all_properties cfg requests_get
  = PList (before ++ PDict d :: behind) ->
  Forall (fun p => exists d', p = PDict d'
                   /\ py_str rt (dict_get d' (lit "id") PNone)
                      <> property_id) before ->
  py_str rt (dict_get d (lit "id") PNone) = property_id ->
  fetch_property_by_id rt cfg requests_get property_id = PDict d.
Proof.
  intros Hget Hstatus Hall Hbefore Hd. unfold fetch_property_by_id.
  rewrite Hget, Hall. destruct (Z.eqb_spec status_code 200); [done|].
  assert (Hscan : scan_for_id rt property_id (before ++ PDict d :: behind)
                  = Some (PDict d)); [|by rewrite Hscan].
  clear Hall.
  induction Hbefore as [|p before (d' & -> & Hne) _ IH]; simpl.
  - by rewrite bool_decide_eq_true_2.
  - rewrite bool_decide_eq_false_2 by done. exact IH.
Qed.
End FetchOne.

(** ** The formatters: the fields they read, and failure *)

Section FormatterOutcome.
Variable rt : runtime.
Implicit Types (p c : record) (v w : value).

Lemma dict_get_insert_ne p k k' v w :
  k <> k' -> dict_get (<[k := v]> p) k' w = dict_get p k' w.
Proof. intros Hne. unfold dict_get. by rewrite lookup_insert_ne. Qed.

Ltac other_keys :=
  repeat match goal with
    | |- context [dict_get (<[?k := ?v]> ?p) ?k' ?w] =>
        rewrite (dict_get_insert_ne p k k' v w) by (done || discriminate)
    | |- context [(<[?k := ?v]> ?p) !! ?k'] =>
        rewrite (lookup_insert_ne p k k' v) by (done || discriminate)
    end.

(** X18: [format_property] reads eight keys ([name], [id], the four rating
    keys, [location] and [url]); a value stored under any other key does
    not change its text. *)
Theorem format_property_ignores_other_fields p k v :
  Forall (fun key => k <> key) format_property_keys ->
  format_property rt (<[k := v]> p) = format_property rt p.
Proof.
  intros Hk. unfold format_property_keys in Hk.
  repeat (apply Forall_cons in Hk as [? Hk]).
  unfold format_property. by other_keys.
Qed.

(** X19: in [format_property] a rating key that is present hides its
    alias: with [airbnb_rating] (or [booking_rating]) in the record, the
    value under [airbnb] (or [booking]) does not show. *)
Theorem format_property_primary_rating p primary fallback v w :
  [primary; fallback] ∈ sub_rating_aliases ->
  p !! primary = Some v ->
  format_property rt (<[fallback := w]> p) = format_property rt p.
Proof.
  intros Hpair Hp. unfold sub_rating_aliases in Hpair.
  rewrite !elem_of_cons, elem_of_nil in Hpair.
  destruct Hpair as [[= -> ->]|[[= -> ->]|[]]]; unfold format_property;
    other_keys.
  - by rewrite !(dict_get_present p (lit "airbnb_rating") _ v).
  - by rewrite !(dict_get_present p (lit "booking_rating") _ v).
Qed.

(** X20: in [format_property_basic] a [location] key that is present
    hides the address, also when its value is empty: the text does not
    depend on what is stored under [address]. *)
Theorem format_property_basic_location_first p v w :
  p !! lit "location" = Some v ->
  format_property_basic rt (<[lit "address" := w]> p)
  = format_property_basic rt p.
Proof.
  intros Hloc. unfold format_property_basic. other_keys.
  by rewrite !(dict_get_present p (lit "location") _ v).
Qed.

(** X21: [format_complaint] raises exactly when the description that
    alias resolution finds is neither a string nor a list (a number,
    [None], a boolean or an object), and what it raises is
    [TypeError]. *)
Theorem format_complaint_raises c e :
  format_complaint rt c = Raise e
  <-> e = TypeError
      /\ sliceable (default (PStr (lit "No description"))
                      (resolve_alias c description_aliases)) = false.
Proof.
  unfold format_complaint.
  rewrite (dict_get_alias3 c (lit "description") (lit "message") (lit "text")).
  fold description_aliases.
  destruct (default _ (resolve_alias c description_aliases))
    as [|b|z|f|s|l|d]; cbn [description_slice py_len mbind result_bind sliceable];
    split; try done; try (intros [= <-]; done); try (by intros [-> _]);
    by intros [_ ?].
Qed.

(** X22: a complaint without [description], [message] and [text] is
    formatted with the text "No description" as its description. *)
Theorem format_complaint_no_description c :
  resolve_alias c description_aliases = None ->
  exists head,
    format_complaint rt c
    = Ok (head ++ nl ++ lit "   Description: No description").
Proof.
  intros Hd. unfold format_complaint.
  rewrite (dict_get_alias3 c (lit "description") (lit "message") (lit "text")).
  fold description_aliases. rewrite Hd.
  cbn [default from_option id description_slice py_len mbind result_bind
       py_str].
  rewrite str_join_snoc by (by repeat case_match).
  eexists. reflexivity.
Qed.
End FormatterOutcome.

(** ** The chart's labels and series *)

Section ChartSeries.
Variable rt : runtime.


End ChartSeries.

(** ** The handlers *)

Lemma append_each_records (f : record -> pystr) (sep : list pystr)
    (records : list record) (lines : list pystr) :
  append_each (on_record (fun p => inr (f p))) sep (PDict <$> records) lines
  = inr (lines ++ concat ((fun p => f p :: sep) <$> records)).
Proof.
  revert lines. induction records as [|p records IH]; intros lines; simpl.
  - by rewrite app_nil_r.
  - rewrite IH. by rewrite <- !app_assoc.
Qed.

Lemma append_each_records_plain (f : record -> pystr)
    (records : list record) (lines : list pystr) :
  append_each (on_record (fun p => inr (f p))) [] (PDict <$> records) lines
  = inr (lines ++ (f <$> records)).
Proof.
  rewrite append_each_records. do 2 f_equal.
  induction records as [|p records IH]; [done|].
  rewrite !fmap_cons. cbn [concat app]. by f_equal.
Qed.

Lemma append_each_not_a_dict (f : record -> failure + pystr)
    (sep : list pystr) (records : list record) (p : value)
    (rest : list value) (lines : list pystr) :
  (forall d, p <> PDict d) ->
  Forall (fun d => exists line, f d = inr line) records ->
  append_each (on_record f) sep ((PDict <$> records) ++ p :: rest) lines
  = inl AttributeError.
Proof.
  intros Hp Hrecords. revert lines.
  induction Hrecords as [|d records [line Hline] _ IH]; intros lines; simpl.
  - destruct p; try done. by destruct (Hp d).
  - rewrite Hline. apply IH.
Qed.

(** What [split_and_send] does to an update: the actions are untouched,
    and the message gets the chunks of the text as replies. *)
Lemma send_report_spec (u : update) (text : pystr) :
  chat_actions (send_report u text) = chat_actions u
  /\ exists chunks,
       message_calls (send_report u text)
       = message_calls u ++ (ReplyText <$> chunks)
       /\ replies u (send_report u text) = chunks
       /\ Forall (fun chunk => Z.of_nat (length chunk) <= 4000) chunks
       /\ concat chunks = text.
Proof.
  split; [done|].
  destruct (split_loop_spec text 0 (message u))
    as (chunks & Hcalls & Hlen & Hcat & _); [done|].
  exists chunks. unfold send_report, split_and_send, replies, chunks_sent.
  cbn [message_calls with_message message calls]. simpl in Hcalls.
  rewrite Hcalls. split; [done|]. split; [|split; [exact Hlen|done]].
  rewrite drop_app_length, <- list_fmap_compose.
  rewrite <- (list_fmap_id chunks) at 2. by apply list_fmap_ext.
Qed.

Section Handlers.
Variable rt : runtime.
Variable cfg : config.
Variable requests_get : pystr -> gmap pystr pystr -> http_reply.

(** X24: when the request for the properties fails (in transport, with a
    status from 400 to 599, or with a body that is not JSON),
    [ratings_handler] sends the action [typing] and one reply, the text
    that no data is available, and does not fail. *)
Theorem ratings_handler_no_data (u : update) :
  failed_fetch (requests_get (MOCKAPI_URL cfg) (build_headers cfg)) ->
  ratings_handler rt cfg requests_get u
  = (reply_text (send_action u (lit "typing"))
       (lit "No property data available (check MOCKAPI_URL or network)."),
     None).
Proof.
  intros Hfail. unfold ratings_handler.
  assert (Hnone : fetch_all_properties cfg requests_get = PList []).
  { unfold fetch_all_properties.
    destruct (get_json_failed cfg requests_get _ Hfail) as [e He].
    by rewrite He. }
  by rewrite Hnone.
Qed.

(** X25: when [fetch_all_properties] returns a list of dicts that is not
    empty, [ratings_handler] does not fail; it sends the action [typing]
    and, as replies of at most 4000 characters each, the report: the
    title and the text of [format_property] for each record in order,
    joined by newlines. *)
Theorem ratings_handler_report (u : update) (records : list record) :
  records <> [] ->
  fetch_all_properties cfg requests_get = PList (PDict <$> records) ->
  exists u',
    ratings_handler rt cfg requests_get u = (u', None)
    /\ chat_actions u' = chat_actions u ++ [lit "typing"]
    /\ message_calls u'
       = message_calls u ++ (ReplyText <$> replies u u')
    /\ Forall (fun chunk => Z.of_nat (length chunk) <= 4000) (replies u u')
    /\ concat (replies u u')
       = str_join nl
           ((houses ++ lit " Property Ratings (MockAPI) " ++ nl)
              :: (format_property rt <$> records)).
Proof.
  intros Hne Hall. unfold ratings_handler. rewrite Hall.
  assert (Htruthy : truthy (PList (PDict <$> records)) = true)
    by (by destruct records).
  rewrite Htruthy. cbn [negb py_iter].
  rewrite (append_each_records_plain (format_property rt)).
  set (text := str_join nl _).
  destruct (send_report_spec (send_action u (lit "typing")) text)
    as (Hactions & chunks & Hcalls & Hreplies & Hlen & Hcat).
  eexists. split; [reflexivity|].
  assert (Hsame : replies u (send_report (send_action u (lit "typing")) text)
                  = chunks) by exact Hreplies.
  rewrite Hsame. split; [by rewrite Hactions|]. split; [exact Hcalls|].
  split; [exact Hlen|exact Hcat].
Qed.

(** X26: when the list that [fetch_all_properties] returns holds, behind
    dicts, an element that is no dict, [ratings_handler] fails with
    [AttributeError] before it replies anything: only the action
    [typing] has been sent. *)
Theorem ratings_handler_not_a_dict (u : update) (records : list record)
    (p : value) (rest : list value) :
  (forall d, p <> PDict d) ->
  fetch_all_properties cfg requests_get
  = PList ((PDict <$> records) ++ p :: rest) ->
  ratings_handler rt cfg requests_get u
  = (send_action u (lit "typing"), Some AttributeError).
Proof.
  intros Hp Hall. unfold ratings_handler. rewrite Hall.
  assert (Htruthy : truthy (PList ((PDict <$> records) ++ p :: rest)) = true)
    by (by destruct records).
  rewrite Htruthy. cbn [negb py_iter].
  rewrite append_each_not_a_dict; [done|done|].
  apply Forall_forall. intros d _. by eexists.
Qed.

(** X27: [properties_handler] on a list of dicts that is not empty: the
    replies, of at most 4000 characters each, make up the title, the
    line of [format_property_basic] for each record in order, and the two
    lines of hints, joined by newlines. *)
Theorem properties_handler_report (PROPERTIES_URL : pystr) (u : update)
    (records : list record) :
  records <> [] ->
  fetch_properties_list cfg PROPERTIES_URL requests_get
  = PList (PDict <$> records) ->
  exists u',
    properties_handler rt cfg PROPERTIES_URL requests_get u = (u', None)
    /\ chat_actions u' = chat_actions u ++ [lit "typing"]
    /\ message_calls u'
       = message_calls u ++ (ReplyText <$> replies u u')
    /\ Forall (fun chunk => Z.of_nat (length chunk) <= 4000) (replies u u')
    /\ concat (replies u u')
       = str_join nl
           ((house ++ lit " Properties List" ++ nl)
              :: (format_property_basic rt <$> records)
              ++ [nl ++ bulb ++ lit " Use /property <id> for details";
                  bulb ++ lit " Use /complaints <id> to see complaints"]).
Proof.
  intros Hne Hall. unfold properties_handler. rewrite Hall.
  assert (Htruthy : truthy (PList (PDict <$> records)) = true)
    by (by destruct records).
  rewrite Htruthy. cbn [negb py_iter].
  rewrite (append_each_records_plain (format_property_basic rt)).
  set (text := str_join nl _).
  destruct (send_report_spec (send_action u (lit "typing")) text)
    as (Hactions & chunks & Hcalls & Hreplies & Hlen & Hcat).
  eexists. split; [reflexivity|].
  assert (Hsame : replies u (send_report (send_action u (lit "typing")) text)
                  = chunks) by exact Hreplies.
  rewrite Hsame. split; [by rewrite Hactions|]. split; [exact Hcalls|].
  split; [exact Hlen|]. rewrite Hcat. subst text.
  by rewrite <- !app_assoc.
Qed.


(** With arguments and without a [COMPLAINTS_URL] (unset or empty),
    [complaints_handler] replies that the feature is not configured and
    does nothing else: no action is sent and no request is made, so the
    outcome is the same on every network. *)
Lemma complaints_handler_unconfigured (prop_id : pystr)
    (rest : list pystr) (u : update) :
  COMPLAINTS_URL cfg = None \/ COMPLAINTS_URL cfg = Some [] ->
  forall network,
    complaints_handler rt cfg network (prop_id :: rest) u
    = (reply_text u
         (lit "Complaints feature is not configured." ++ nl
            ++ lit "Please set COMPLAINTS_URL in environment variables."),
       None).
Proof.
  intros Hurl network. unfold complaints_handler.
  by destruct Hurl as [-> | ->].
Qed.
Lemma append_each_complaints (cs : list record) (texts lines : list pystr) :
  Forall2 (fun c text => format_complaint rt c = Ok text) cs texts ->
  append_each (format_complaint_call rt) [[]] (PDict <$> cs) lines
  = inr (lines ++ concat ((fun text => [text; []]) <$> texts)).
Proof.
  intros Hall. revert lines.
  induction Hall as [|c text cs texts Hc _ IH]; intros lines.
  - simpl. by rewrite app_nil_r.
  - rewrite !fmap_cons. cbn [append_each format_complaint_call on_record].
    rewrite Hc, IH. cbn [concat]. by rewrite <- !app_assoc.
Qed.

(** X29: [complaints_handler] with a configured [COMPLAINTS_URL], for a
    property that is found as a dict and a list of complaints, not
    empty, that are dicts which [format_complaint] formats: it does not
    fail; it sends the action [typing] and, as replies of at most 4000
    characters each, the report: a title with the property's name (or
    "Property <id>"), the number of complaints, and the text of each
    complaint followed by an empty line, joined by newlines. *)
Theorem complaints_handler_report (prop_id : pystr) (rest : list pystr)
    (u : update) (complaints_url : pystr) (d : record) (cs : list record)
    (texts : list pystr) :
  COMPLAINTS_URL cfg = Some complaints_url -> complaints_url <> [] ->
  fetch_property_by_id rt cfg requests_get prop_id = PDict d -> d <> ∅ ->
  fetch_complaints_for_property cfg requests_get prop_id
  = PList (PDict <$> cs) ->
  cs <> [] ->
  Forall2 (fun c text => format_complaint rt c = Ok text) cs texts ->
  exists u',
    complaints_handler rt cfg requests_get (prop_id :: rest) u = (u', None)
    /\ chat_actions u' = chat_actions u ++ [lit "typing"]
    /\ message_calls u'
       = message_calls u ++ (ReplyText <$> replies u u')
    /\ Forall (fun chunk => Z.of_nat (length chunk) <= 4000) (replies u u')
    /\ concat (replies u u')
       = str_join nl
           ([clipboard ++ lit " Complaints for "
               ++ py_str rt (dict_get d (lit "name")
                               (PStr (lit "Property " ++ prop_id)))
               ++ lit " (id: " ++ prop_id ++ lit ")" ++ nl;
             lit "Total: " ++ str_int (Z.of_nat (length cs))
               ++ lit " complaint(s)" ++ nl]
              ++ concat ((fun text => [text; []]) <$> texts)).
Proof.
  intros Hurl Hne Hprop Hd Hcs Hsome Htexts. unfold complaints_handler.
  rewrite Hurl. cbn [default from_option id].
  rewrite bool_decide_eq_false_2 by done.
  rewrite Hprop, Hcs.
  assert (Hp : truthy (PDict d) = true).
  { simpl. by rewrite bool_decide_eq_false_2. }
  assert (Hc : truthy (PList (PDict <$> cs)) = true) by (by destruct cs).
  rewrite Hp, Hc. cbn [negb on_record py_len py_iter].
  rewrite length_fmap, (append_each_complaints cs texts) by done.
  set (text := str_join nl _).
  destruct (send_report_spec (send_action u (lit "typing")) text)
    as (Hactions & chunks & Hcalls & Hreplies & Hlen & Hcat).
  eexists. split; [reflexivity|].
  assert (Hsame : replies u (send_report (send_action u (lit "typing")) text)
                  = chunks) by exact Hreplies.
  rewrite Hsame. split; [by rewrite Hactions|]. split; [exact Hcalls|].
  split; [exact Hlen|]. rewrite Hcat. subst text.
  by rewrite <- !app_assoc.
Qed.
End Handlers.

(** ** The properties above at concrete inputs *)

Lemma score_is_mean_of_surviving_witness :
  get_property_rating sample_runtime sample_a
  = Ok (arithmetic_mean (surviving_ratings sample_runtime sample_a))
  /\ (surviving_ratings sample_runtime sample_a = [] ->
      get_property_rating sample_runtime sample_a = Ok float_zero).
Proof.
  apply (score_is_mean_of_surviving sample_runtime sample_a);
    intros (v & Hres & Hv); vm_compute in Hres; injection Hres as <-;
    vm_compute in Hv; discriminate.
Defined.

Lemma score_ignores_other_fields_witness :
  get_property_rating sample_runtime
    (<[lit "name" := PStr (lit "C")]> sample_a)
  = get_property_rating sample_runtime sample_a
  /\ get_property_rating sample_runtime (delete (lit "name") sample_a)
     = get_property_rating sample_runtime sample_a.
Proof.
  apply (score_ignores_other_fields sample_runtime sample_a (lit "name")).
  unfold sub_rating_aliases.
  repeat constructor; rewrite !elem_of_cons, elem_of_nil;
    intros [H|[H|[]]]; discriminate.
Defined.

Lemma sample_records_scored :
  Forall (fun p => exists f, get_property_rating sample_runtime p = Ok f)
    [sample_a; sample_b].
Proof. repeat constructor; eexists; vm_compute; reflexivity. Defined.

Lemma rank_length_any_limit_witness :
  exists out,
    get_top_rated_properties sample_runtime [sample_a; sample_b] (-1) = Ok out
    /\ Z.of_nat (length out)
       = (if -1 <? 0
          then Z.max (Z.of_nat (length [sample_a; sample_b]) + -1) 0
          else Z.min (-1) (Z.of_nat (length [sample_a; sample_b])))
    /\ Forall (fun e => e.1 ∈ [sample_a; sample_b]
                        /\ get_property_rating sample_runtime e.1 = Ok e.2)
         out.
Proof.
  apply (rank_length_any_limit sample_runtime [sample_a; sample_b] (-1)).
  exact sample_records_scored.
Defined.

Lemma rank_smaller_limit_is_prefix_witness :
  exists top_a top_b,
    get_top_rated_properties sample_runtime [sample_a; sample_b] 1 = Ok top_a
    /\ get_top_rated_properties sample_runtime [sample_a; sample_b] 20
       = Ok top_b
    /\ top_a `prefix_of` top_b.
Proof.
  apply (rank_smaller_limit_is_prefix sample_runtime [sample_a; sample_b] 1 20).
  - lia.
  - exact sample_records_scored.
Defined.

Lemma rank_all_is_rearrangement_witness :
  exists rated out,
    Forall2 (entry_of sample_runtime) [sample_a; sample_b] rated
    /\ get_top_rated_properties sample_runtime [sample_a; sample_b] 5 = Ok out
    /\ out ≡ₚ rated.
Proof.
  apply (rank_all_is_rearrangement sample_runtime [sample_a; sample_b] 5).
  - simpl. lia.
  - exact sample_records_scored.
Defined.

Lemma fetch_all_properties_shapes_witness :
  (forall l, PDict {[lit "data" := PList [PDict sample_a]]} = PList l ->
     fetch_all_properties sample_config
       (always (Response 200
                  (Some (PDict {[lit "data" := PList [PDict sample_a]]}))))
     = PList l)
  /\ (forall d l,
        PDict {[lit "data" := PList [PDict sample_a]]} = PDict d ->
        d !! lit "data" = Some (PList l) ->
        fetch_all_properties sample_config
          (always (Response 200
                     (Some (PDict {[lit "data" := PList [PDict sample_a]]}))))
        = PList l)
  /\ ((forall l, PDict {[lit "data" := PList [PDict sample_a]]} <> PList l) ->
      (forall d l,
         PDict {[lit "data" := PList [PDict sample_a]]} = PDict d ->
         d !! lit "data" <> Some (PList l)) ->
      fetch_all_properties sample_config
        (always (Response 200
                   (Some (PDict {[lit "data" := PList [PDict sample_a]]}))))
      = PList []).
Proof.
  apply (fetch_all_properties_shapes sample_config
           (always (Response 200
                      (Some (PDict {[lit "data" := PList [PDict sample_a]]}))))
           200 (PDict {[lit "data" := PList [PDict sample_a]]})).
  - reflexivity.
  - lia.
Defined.

Lemma fetch_complaints_unconfigured_witness :
  fetch_complaints_for_property (with_complaints_url sample_config None)
    sample_network (lit "7")
  = PList [].
Proof.
  apply (fetch_complaints_unconfigured
           (with_complaints_url sample_config None) (lit "7")).
  left. reflexivity.
Defined.

Lemma fetch_complaints_failure_witness :
  fetch_complaints_for_property sample_config (always (Response 503 None))
    (lit "7")
  = PList [].
Proof.
  apply (fetch_complaints_failure sample_config (always (Response 503 None))
           (lit "7") (lit "https://example.mockapi.io/complaints/")).
  - reflexivity.
  - simpl. left. lia.
Defined.

Lemma fetch_complaints_trailing_slash_witness :
  fetch_complaints_for_property
    (with_complaints_url sample_config
       (Some (lit "https://example.mockapi.io/complaints" ++ lit "/")))
    sample_network (lit "7")
  = fetch_complaints_for_property
      (with_complaints_url sample_config
         (Some (lit "https://example.mockapi.io/complaints")))
      sample_network (lit "7").
Proof.
  apply (fetch_complaints_trailing_slash sample_config sample_network
           (lit "7") (lit "https://example.mockapi.io/complaints")).
  discriminate.
Defined.

Lemma fetch_properties_list_default_witness :
  fetch_properties_list sample_config [] sample_network
  = fetch_all_properties sample_config sample_network.
Proof.
  apply (fetch_properties_list_default sample_config sample_network []).
  left. reflexivity.
Defined.

Lemma fetch_property_by_id_fallback_witness :
  fetch_property_by_id sample_runtime sample_config sample_network (lit "2")
  = PDict ∅
  \/ exists d all_props,
       fetch_property_by_id sample_runtime sample_config sample_network
         (lit "2")
       = PDict d
       /\ fetch_all_properties sample_config sample_network = PList all_props
       /\ PDict d ∈ all_props
       /\ py_str sample_runtime (dict_get d (lit "id") PNone) = lit "2".
Proof.
  apply (fetch_property_by_id_fallback sample_runtime sample_config
           sample_network (lit "2")).
  intros json. vm_compute. discriminate.
Defined.

Lemma fetch_property_by_id_first_match_witness :
  fetch_property_by_id sample_runtime sample_config sample_network (lit "2")
  = PDict sample_b.
Proof.
  apply (fetch_property_by_id_first_match sample_runtime sample_config
           sample_network (lit "2") 404 None [PDict sample_a] [] sample_b).
  - vm_compute. reflexivity.
  - lia.
  - vm_compute. reflexivity.
  - repeat constructor. exists sample_a. split; [reflexivity|].
    vm_compute. discriminate.
  - vm_compute. reflexivity.
Defined.

Lemma format_property_ignores_other_fields_witness :
  format_property sample_runtime
    (<[lit "address" := PStr (lit "12 Main St")]> sample_a)
  = format_property sample_runtime sample_a.
Proof.
  apply (format_property_ignores_other_fields sample_runtime sample_a
           (lit "address")).
  unfold format_property_keys. repeat constructor; discriminate.
Defined.

Lemma format_property_primary_rating_witness :
  format_property sample_runtime (<[lit "airbnb" := PInt 1]> sample_a)
  = format_property sample_runtime sample_a.
Proof.
  apply (format_property_primary_rating sample_runtime sample_a
           (lit "airbnb_rating") (lit "airbnb") (PInt 4)).
  - unfold sub_rating_aliases. constructor.
  - reflexivity.
Defined.

Lemma format_property_basic_location_first_witness :
  format_property_basic sample_runtime
    (<[lit "address" := PStr (lit "12 Main St")]>
       {[lit "location" := PStr []]})
  = format_property_basic sample_runtime {[lit "location" := PStr []]}.
Proof.
  apply (format_property_basic_location_first sample_runtime
           {[lit "location" := PStr []]} (PStr [])).
  reflexivity.
Defined.

Lemma format_complaint_no_description_witness :
  exists head,
    format_complaint sample_runtime {[lit "title" := PStr (lit "Noise")]}
    = Ok (head ++ nl ++ lit "   Description: No description").
Proof.
  apply (format_complaint_no_description sample_runtime
           {[lit "title" := PStr (lit "Noise")]}).
  reflexivity.
Defined.


Lemma ratings_handler_no_data_witness :
  ratings_handler sample_runtime sample_config (always (Response 500 None))
    fresh_update
  = (reply_text (send_action fresh_update (lit "typing"))
       (lit "No property data available (check MOCKAPI_URL or network)."),
     None).
Proof.
  apply (ratings_handler_no_data sample_runtime sample_config
           (always (Response 500 None)) fresh_update).
  simpl. left. lia.
Defined.

Lemma ratings_handler_report_witness :
  exists u',
    ratings_handler sample_runtime sample_config sample_network fresh_update
    = (u', None)
    /\ chat_actions u' = chat_actions fresh_update ++ [lit "typing"]
    /\ message_calls u'
       = message_calls fresh_update
           ++ (ReplyText <$> replies fresh_update u')
    /\ Forall (fun chunk => Z.of_nat (length chunk) <= 4000)
         (replies fresh_update u')
    /\ concat (replies fresh_update u')
       = str_join nl
           ((houses ++ lit " Property Ratings (MockAPI) " ++ nl)
              :: (format_property sample_runtime <$> [sample_a; sample_b])).
Proof.
  apply (ratings_handler_report sample_runtime sample_config sample_network
           fresh_update [sample_a; sample_b]).
  - discriminate.
  - vm_compute. reflexivity.
Defined.

Lemma ratings_handler_not_a_dict_witness :
  ratings_handler sample_runtime sample_config
    (always (Response 200 (Some (PList [PDict sample_a; PStr (lit "B")]))))
    fresh_update
  = (send_action fresh_update (lit "typing"), Some AttributeError).
Proof.
  apply (ratings_handler_not_a_dict sample_runtime sample_config
           (always (Response 200
                      (Some (PList [PDict sample_a; PStr (lit "B")]))))
           fresh_update [sample_a] (PStr (lit "B")) []).
  - discriminate.
  - vm_compute. reflexivity.
Defined.

Lemma properties_handler_report_witness :
  exists u',
    properties_handler sample_runtime sample_config [] sample_network
      fresh_update
    = (u', None)
    /\ chat_actions u' = chat_actions fresh_update ++ [lit "typing"]
    /\ message_calls u'
       = message_calls fresh_update
           ++ (ReplyText <$> replies fresh_update u')
    /\ Forall (fun chunk => Z.of_nat (length chunk) <= 4000)
         (replies fresh_update u')
    /\ concat (replies fresh_update u')
       = str_join nl
           ((house ++ lit " Properties List" ++ nl)
              :: (format_property_basic sample_runtime
                    <$> [sample_a; sample_b])
              ++ [nl ++ bulb ++ lit " Use /property <id> for details";
                  bulb ++ lit " Use /complaints <id> to see complaints"]).
Proof.
  apply (properties_handler_report sample_runtime sample_config
           sample_network [] fresh_update [sample_a; sample_b]).
  - discriminate.
  - vm_compute. reflexivity.
Defined.

Lemma complaints_handler_report_witness :
  exists u',
    complaints_handler sample_runtime sample_config sample_network
      [lit "1"] fresh_update
    = (u', None)
    /\ chat_actions u' = chat_actions fresh_update ++ [lit "typing"]
    /\ message_calls u'
       = message_calls fresh_update
           ++ (ReplyText <$> replies fresh_update u')
    /\ Forall (fun chunk => Z.of_nat (length chunk) <= 4000)
         (replies fresh_update u')
    /\ concat (replies fresh_update u')
       = str_join nl
           ([clipboard ++ lit " Complaints for "
               ++ py_str sample_runtime
                    (dict_get sample_a (lit "name")
                       (PStr (lit "Property " ++ lit "1")))
               ++ lit " (id: " ++ lit "1" ++ lit ")" ++ nl;
             lit "Total: " ++ str_int (Z.of_nat (length [sample_complaint]))
               ++ lit " complaint(s)" ++ nl]
              ++ concat
                   ((fun text => [text; []])
                      <$> [clipboard ++ lit " Complaint #9: Noise" ++ nl
                             ++ lit "   Status: unknown" ++ nl
                             ++ lit "   Description: Loud music at night"])).
Proof.
  apply (complaints_handler_report sample_runtime sample_config
           sample_network (lit "1") [] fresh_update
           (lit "https://example.mockapi.io/complaints/") sample_a
           [sample_complaint]).
  - reflexivity.
  - discriminate.
  - vm_compute. reflexivity.
  - intros H. apply (f_equal (fun m : record => m !! lit "name")) in H.
    vm_compute in H. discriminate.
  - vm_compute. reflexivity.
  - discriminate.
  - constructor; [vm_compute; reflexivity|constructor].
Defined.
